(** * jobmon: the job derivation and query pipeline of [app.py]

    A shallow embedding of the Flask back end of the job monitor
    ([src/app.py]): the date/time parser, the derivation of a job's
    status and duration, the spreadsheet reload, the paginated listing
    and the alert evaluation, followed by the properties proved of them.

    Conventions of the embedding.
    - A Python [str] is a [string]; one [ascii] stands for one code point
      below 256, so the character classes below ([isspace], [lower],
      the regular-expression classes) are the Python ones restricted to
      that range.
    - A Python [int] is a [Z].
    - An exception is a value of [exn]; code that may raise returns a
      [result]; [try ... except Exception] is [try_except].
    - [print] calls (the log), [jsonify] and [isoformat] are not
      modelled: a response [Http200 b] is the handler reaching
      [return jsonify(b)], and holds the values themselves.
    - A Python [float] is a value of [PyFloat.float]: a double, its
      divisions and additions rounded to the nearest, ties to even.
    - A parsed time is a [stamp]: the naive [datetime] that [strptime]
      builds, or the scalar that [pd.to_datetime] returns (a [Timestamp],
      zone-aware or not, or [NaT]).
    - [pd.to_datetime], the arithmetic of the scalars of pandas, the
      float formatting of [timestamp()] and the wall clock are external:
      they are the [Variable]s of the sections. *)

From Stdlib Require Import ZArith String Ascii List Lia DecimalString.
From stdpp Require Import base option list gmap strings.

Local Open Scope string_scope.
Local Open Scope Z_scope.

(** ** Exceptions *)

(** The exception classes that the modelled code tells apart:
    [except ValueError] catches the first only, [except Exception]
    catches all of them. *)
Inductive exn : Type :=
| ValueError
| KeyError
| OtherException.

Inductive result (A : Type) : Type :=
| Ok (a : A)
| Raise (e : exn).

Arguments Ok {A} a.
Arguments Raise {A} e.

Definition rbind {A B} (m : result A) (k : A -> result B) : result B :=
  match m with
  | Ok a => k a
  | Raise e => Raise e
  end.

(** [try: body except Exception as e: handler] *)
Definition try_except {A} (body : result A) (handler : exn -> result A) : result A :=
  match body with
  | Ok a => Ok a
  | Raise e => handler e
  end.

(** [result] is a monad in stdpp's sense: [x ← m; k] sequences two
    computations and stops at the first exception. *)
#[global] Instance result_ret : MRet result := fun A a => Ok a.
#[global] Instance result_bind : MBind result := fun A B k m => rbind m k.

(** ** Python strings *)

Module PyStr.

(** [str.isspace] on one character, also the class [\s] of [re]. *)
Definition isspace (c : ascii) : bool :=
  let n := N_of_ascii c in
  ((9 <=? n) && (n <=? 13) || (28 <=? n) && (n <=? 32)
   || (n =? 133) || (n =? 160))%N.

(** The class [\d] of [re]. *)
Definition isdigit (c : ascii) : bool :=
  let n := N_of_ascii c in ((48 <=? n) && (n <=? 57))%N.

Definition lower_char (c : ascii) : ascii :=
  let n := N_of_ascii c in
  if ((65 <=? n) && (n <=? 90)
      || (192 <=? n) && (n <=? 222) && negb (n =? 215))%N
  then ascii_of_N (n + 32) else c.

(** [str.lower] *)
Fixpoint lower (s : string) : string :=
  match s with
  | EmptyString => EmptyString
  | String c r => String (lower_char c) (lower r)
  end.

Fixpoint lstrip (s : string) : string :=
  match s with
  | EmptyString => EmptyString
  | String c r => if isspace c then lstrip r else s
  end.

Fixpoint rstrip (s : string) : string :=
  match s with
  | EmptyString => EmptyString
  | String c r =>
      match rstrip r with
      | EmptyString => if isspace c then EmptyString else String c EmptyString
      | r' => String c r'
      end
  end.

(** [str.strip] without argument *)
Definition strip (s : string) : string := rstrip (lstrip s).

(** Truth value of a [str]: false exactly for the empty one. *)
Definition truthy (s : string) : bool :=
  match s with
  | EmptyString => false
  | String _ _ => true
  end.

Fixpoint startswith (p s : string) : bool :=
  match p, s with
  | EmptyString, _ => true
  | String a p', String b s' => Ascii.eqb a b && startswith p' s'
  | String _ _, EmptyString => false
  end.

(** [needle in hay] *)
Fixpoint contains (needle hay : string) : bool :=
  startswith needle hay
  || match hay with
     | EmptyString => false
     | String _ r => contains needle r
     end.

(** The default of [sys.get_int_max_str_digits()]. *)
Definition int_max_str_digits : Z := 4300.

(** The white space that [int] skips around a number: that of
    [str.strip] but for the four separators 0x1C to 0x1F. *)
Definition int_isspace (c : ascii) : bool :=
  let n := N_of_ascii c in
  ((9 <=? n) && (n <=? 13) || (n =? 32) || (n =? 133) || (n =? 160))%N.

Fixpoint int_lstrip (s : string) : string :=
  match s with
  | EmptyString => EmptyString
  | String c r => if int_isspace c then int_lstrip r else s
  end.

Fixpoint int_rstrip (s : string) : string :=
  match s with
  | EmptyString => EmptyString
  | String c r =>
      match int_rstrip r with
      | EmptyString => if int_isspace c then EmptyString else String c EmptyString
      | r' => String c r'
      end
  end.

(** [int(s)] for a [str]: optional sign, then decimal digits that
    single underscores may separate, white space around ignored; a
    [ValueError] otherwise, and when there are more digits than
    [int_max_str_digits]. *)
Definition int (s : string) : result Z :=
  let digits :=
    fix digits (s : string) (acc count : Z) (after_digit : bool) : option Z :=
      match s with
      | EmptyString =>
          if after_digit && (count <=? int_max_str_digits) then Some acc else None
      | String c r =>
          if isdigit c
          then digits r (acc * 10 + (Z.of_N (N_of_ascii c) - 48)) (count + 1) true
          else if Ascii.eqb c "_" && after_digit then digits r acc count false
          else None
      end in
  let signed :=
    match int_rstrip (int_lstrip s) with
    | String c r =>
        if Ascii.eqb c "-" then Z.opp <$> digits r 0 0 false
        else if Ascii.eqb c "+" then digits r 0 0 false
        else digits (String c r) 0 0 false
    | EmptyString => None
    end in
  match signed with
  | Some n => Ok n
  | None => Raise ValueError
  end.

(** [str(n)] for an [int]. *)
Definition of_int (n : Z) : string := NilZero.string_of_int (Z.to_int n).

(** [str(n)] for a length or an index. *)
Definition of_nat (n : nat) : string := of_int (Z.of_nat n).

End PyStr.

(** ** Python floats *)

Module PyFloat.

(** A [float]: the double [m * 2^e], an infinity or a NaN. *)
Inductive float : Type :=
| Finite (m e : Z)
| Inf (negative : bool)
| Nan.

(** [n / (d * 2^e)] as a fraction of two integers. *)
Definition scale (n d e : Z) : Z * Z :=
  if 0 <=? e then (n, d * 2 ^ e) else (n * 2 ^ (- e), d).

(** The integer nearest to [n / d], the even one of two that are
    equally near. *)
Definition nearest (n d : Z) : Z :=
  let q := n / d in
  let r := n mod d in
  if 2 * r <? d then q
  else if d <? 2 * r then q + 1
  else if Z.even q then q else q + 1.

(** The exponent [e] for which [2^52 <= n / (d * 2^e) < 2^53]. *)
Definition exponent (n d : Z) : Z :=
  let e0 := Z.log2 n - Z.log2 d - 52 in
  let (n', d') := scale n d e0 in
  if n' / d' <? 2 ^ 52 then e0 - 1 else e0.

(** [n / d] for [0 <= n] and [0 < d], rounded to the nearest double:
    53 bits, fewer below 2^-1022 where the exponent stays at -1074, an
    infinity from 2^1024 on. *)
Definition round_quotient (n d : Z) : float :=
  if n =? 0 then Finite 0 0
  else
    let e := Z.max (exponent n d) (- 1074) in
    let (n', d') := scale n d e in
    let m := nearest n' d' in
    if (0 <=? e) && (2 ^ 1024 <=? m * 2 ^ e) then Inf false else Finite m e.

Definition opp (x : float) : float :=
  match x with
  | Finite m e => Finite (- m) e
  | Inf negative => Inf (negb negative)
  | Nan => Nan
  end.

(** [p / q] for two [int]s, [q] positive: the double nearest to the
    quotient. From 2^1024 on Python raises an [OverflowError] where
    this gives the infinity that [add] needs; the seconds of a
    [timedelta] are far below. *)
Definition true_div (p q : Z) : float :=
  if p <? 0 then opp (round_quotient (- p) q) else round_quotient p q.

(** [x / n] for a float and a positive [int] below 2^53. *)
Definition div_int (x : float) (n : Z) : float :=
  match x with
  | Finite m e =>
      if 0 <=? e then true_div (m * 2 ^ e) n else true_div m (n * 2 ^ (- e))
  | Inf negative => Inf negative
  | Nan => Nan
  end.

(** [x + y] *)
Definition add (x y : float) : float :=
  match x, y with
  | Finite m1 e1, Finite m2 e2 =>
      let e := Z.min e1 e2 in
      let s := m1 * 2 ^ (e1 - e) + m2 * 2 ^ (e2 - e) in
      if 0 <=? e then true_div (s * 2 ^ e) 1 else true_div s (2 ^ (- e))
  | Nan, _ | _, Nan => Nan
  | Inf a, Inf b => if Bool.eqb a b then Inf a else Nan
  | Inf a, Finite _ _ | Finite _ _, Inf a => Inf a
  end.

(** [x > n] and [x < n] for an [int] [n]; false on a NaN. *)
Definition gt (x : float) (n : Z) : bool :=
  match x with
  | Finite m e => if 0 <=? e then n <? m * 2 ^ e else n * 2 ^ (- e) <? m
  | Inf negative => negb negative
  | Nan => false
  end.

Definition lt (x : float) (n : Z) : bool :=
  match x with
  | Finite m e => if 0 <=? e then m * 2 ^ e <? n else m <? n * 2 ^ (- e)
  | Inf negative => negative
  | Nan => false
  end.

(** [int(x)]: truncation towards zero; a [ValueError] on a NaN, an
    [OverflowError] on an infinity. *)
Definition int (x : float) : result Z :=
  match x with
  | Finite m e => Ok (if 0 <=? e then m * 2 ^ e else Z.quot m (2 ^ (- e)))
  | Inf _ => Raise OtherException
  | Nan => Raise ValueError
  end.

End PyFloat.

(** ** [datetime] and [timedelta] (CPython's [datetime.py]) *)

Module PyTime.

(** A naive [datetime], as [strptime] and [datetime.now()] build it. *)
Record datetime : Type := mk_datetime {
  year : Z; month : Z; day : Z;
  hour : Z; minute : Z; second : Z; microsecond : Z
}.

(** A [timedelta], held as its total number of microseconds
    [(days * 86400 + seconds) * 10**6 + microseconds]. *)
Definition timedelta : Type := Z.

Definition _is_leap (y : Z) : bool :=
  (y mod 4 =? 0) && (negb (y mod 100 =? 0) || (y mod 400 =? 0)).

Definition _days_before_year (year : Z) : Z :=
  let y := year - 1 in
  y * 365 + y / 4 - y / 100 + y / 400.

Definition _DAYS_IN_MONTH : list Z :=
  [-1; 31; 28; 31; 30; 31; 30; 31; 31; 30; 31; 30; 31].

(** [_DAYS_BEFORE_MONTH], the running sum of [_DAYS_IN_MONTH]. *)
Definition _DAYS_BEFORE_MONTH : list Z :=
  [-1; 0; 31; 59; 90; 120; 151; 181; 212; 243; 273; 304; 334].

Definition _days_in_month (y m : Z) : Z :=
  if (m =? 2) && _is_leap y then 29
  else nth (Z.to_nat m) _DAYS_IN_MONTH (-1).

Definition _days_before_month (y m : Z) : Z :=
  nth (Z.to_nat m) _DAYS_BEFORE_MONTH (-1)
  + (if (2 <? m) && _is_leap y then 1 else 0).

Definition _ymd2ord (y m d : Z) : Z :=
  _days_before_year y + _days_before_month y m + d.

Definition MINYEAR : Z := 1.
Definition MAXYEAR : Z := 9999.

Definition _check_date_fields (y m d : Z) : bool :=
  (MINYEAR <=? y) && (y <=? MAXYEAR)
  && (1 <=? m) && (m <=? 12)
  && (1 <=? d) && (d <=? _days_in_month y m).

Definition _check_time_fields (h mi s us : Z) : bool :=
  (0 <=? h) && (h <=? 23) && (0 <=? mi) && (mi <=? 59)
  && (0 <=? s) && (s <=? 59) && (0 <=? us) && (us <=? 999999).

(** The constructor [datetime(y, m, d, h, mi, s, us)]: a [ValueError]
    when a field is out of range. *)
Definition new (y m d h mi s us : Z) : result datetime :=
  if _check_date_fields y m d && _check_time_fields h mi s us
  then Ok (mk_datetime y m d h mi s us)
  else Raise ValueError.

Definition toordinal (t : datetime) : Z :=
  _ymd2ord (year t) (month t) (day t).

(** [datetime.__sub__] on two naive values. *)
Definition sub (self other : datetime) : result timedelta :=
  let days1 := toordinal self in
  let days2 := toordinal other in
  let secs1 := second self + minute self * 60 + hour self * 3600 in
  let secs2 := second other + minute other * 60 + hour other * 3600 in
  Ok (((days1 - days2) * 86400 + (secs1 - secs2)) * 1000000
      + (microsecond self - microsecond other)).

(** [d.total_seconds()]: the total of microseconds divided by
    [10**6], a division of two [int]s. *)
Definition total_seconds (d : timedelta) : PyFloat.float :=
  PyFloat.true_div d 1000000.

End PyTime.

Export PyTime(datetime, timedelta, mk_datetime).

(** ** The scalars of pandas *)

Module Pd.

(** What [pd.to_datetime] returns for a string: a [Timestamp], given
    by its value in nanoseconds and the name of its zone when it is
    aware of one, or [NaT]. Both are true in a test; what their
    differences are is left to pandas. *)
Inductive scalar : Type :=
| Timestamp (value : Z) (tz : option string)
| NaT.

End Pd.

(** A parsed time: a [datetime] built by [strptime], or a scalar of
    pandas. *)
Inductive stamp : Type :=
| Py (t : datetime)
| Pandas (x : Pd.scalar).

(** The difference of two parsed times: the [timedelta] of two
    [datetime]s, or a difference made by pandas, given by its
    [total_seconds()]. *)
Inductive span : Type :=
| Timedelta (d : timedelta)
| Seconds (x : PyFloat.float).

(** [duration.total_seconds()] *)
Definition total_seconds (duration : span) : PyFloat.float :=
  match duration with
  | Timedelta d => PyTime.total_seconds d
  | Seconds x => x
  end.

(** [duration.total_seconds() > n] and [... < n] *)
Definition seconds_gt (duration : span) (n : Z) : bool :=
  PyFloat.gt (total_seconds duration) n.

Definition seconds_lt (duration : span) (n : Z) : bool :=
  PyFloat.lt (total_seconds duration) n.

(** ** [datetime.strptime] (CPython's [_strptime.py]) *)

Module Strptime.
Import PyStr.

(** The directives that the formats of [parse_datetime] use. *)
Inductive field : Type := FY | Fm | Fd | FH | FM | FS.

#[global] Instance field_eq_dec : EqDecision field.
Proof. solve_decision. Defined.

(** One character of a regular expression. *)
Inductive atom : Type :=
| Lit (c : ascii)
| Dig
| Rng (lo hi : ascii).

(** One piece of the compiled format: a literal character (compared
    ignoring case, the regex is compiled with [IGNORECASE]), a run of
    white space [\s+], or the named group of a directive with its
    alternatives in the order of the regular expression. *)
Inductive item : Type :=
| ILit (c : ascii)
| ISpaces
| IGroup (f : field) (alts : list (list atom)).

Definition atom_match (a : atom) (c : ascii) : bool :=
  match a with
  | Lit x => Ascii.eqb x c
  | Dig => isdigit c
  | Rng lo hi => (N_of_ascii lo <=? N_of_ascii c)%N
                 && (N_of_ascii c <=? N_of_ascii hi)%N
  end.

(** The regular expressions of [TimeRE.__init__]. *)
Definition directive (c : ascii) : option item :=
  if Ascii.eqb c "d" then
    Some (IGroup Fd [[Lit "3"; Rng "0" "1"]; [Rng "1" "2"; Dig];
                     [Lit "0"; Rng "1" "9"]; [Rng "1" "9"];
                     [Lit " "; Rng "1" "9"]])
  else if Ascii.eqb c "H" then
    Some (IGroup FH [[Lit "2"; Rng "0" "3"]; [Rng "0" "1"; Dig]; [Dig]])
  else if Ascii.eqb c "m" then
    Some (IGroup Fm [[Lit "1"; Rng "0" "2"]; [Lit "0"; Rng "1" "9"];
                     [Rng "1" "9"]])
  else if Ascii.eqb c "M" then
    Some (IGroup FM [[Rng "0" "5"; Dig]; [Dig]])
  else if Ascii.eqb c "S" then
    Some (IGroup FS [[Lit "6"; Rng "0" "1"]; [Rng "0" "5"; Dig]; [Dig]])
  else if Ascii.eqb c "Y" then
    Some (IGroup FY [[Dig; Dig; Dig; Dig]])
  else None.

(** [TimeRE.pattern]: a run of white space becomes [\s+], [%x] the
    regex of the directive, any other character itself. [None] is the
    [KeyError]/[IndexError] of a bad directive. *)
Fixpoint pattern (format : string) : option (list item) :=
  match format with
  | EmptyString => Some []
  | String c r =>
      if Ascii.eqb c "%" then
        match r with
        | EmptyString => None
        | String d r' =>
            match directive d, pattern r' with
            | Some g, Some p => Some (g :: p)
            | _, _ => None
            end
        end
      else
        match pattern r with
        | None => None
        | Some p =>
            if isspace c then
              match p with
              | ISpaces :: _ => Some p
              | _ => Some (ISpaces :: p)
              end
            else Some (ILit c :: p)
        end
  end.

(** The characters matched by one alternative, and what is left. *)
Fixpoint match_atoms (atoms : list atom) (s : string) : option (string * string) :=
  match atoms with
  | [] => Some (EmptyString, s)
  | a :: atoms' =>
      match s with
      | EmptyString => None
      | String c r =>
          if atom_match a c then
            match match_atoms atoms' r with
            | Some (m, rest) => Some (String c m, rest)
            | None => None
            end
          else None
      end
  end.

(** [\s+] followed by the continuation [k]: greedy, giving back one
    character at a time when [k] fails. *)
Fixpoint match_spaces {X} (k : string -> option X) (s : string) : option X :=
  match s with
  | EmptyString => None
  | String c r =>
      if isspace c then
        match match_spaces k r with
        | Some x => Some x
        | None => k r
        end
      else None
  end.

(** [format_regex.match(data_string)]: the first match in the order
    in which a backtracking matcher explores the alternatives; the
    groups found and the unconverted rest of the string. *)
Fixpoint match_items (items : list item) (s : string)
  : option (list (field * string) * string) :=
  match items with
  | [] => Some ([], s)
  | ILit x :: items' =>
      match s with
      | EmptyString => None
      | String c r =>
          if Ascii.eqb (lower_char x) (lower_char c)
          then match_items items' r else None
      end
  | ISpaces :: items' => match_spaces (match_items items') s
  | IGroup f alts :: items' =>
      (fix first_alt (alts : list (list atom)) :=
         match alts with
         | [] => None
         | alt :: alts' =>
             match match_atoms alt s with
             | None => first_alt alts'
             | Some (m, r) =>
                 match match_items items' r with
                 | Some (found, rest) => Some ((f, m) :: found, rest)
                 | None => first_alt alts'
                 end
             end
         end) alts
  end.

(** [int(found_dict[key])] on the text of a group: decimal digits,
    after optional white space (the last alternative of [%d]). *)
Definition int_of_group (s : string) : Z :=
  (fix go (s : string) (acc : Z) : Z :=
     match s with
     | EmptyString => acc
     | String c r => go r (acc * 10 + (Z.of_N (N_of_ascii c) - 48))
     end) (lstrip s) 0.

Fixpoint group (f : field) (found : list (field * string)) : option Z :=
  match found with
  | [] => None
  | (g, m) :: found' =>
      if decide (f = g) then Some (int_of_group m) else group f found'
  end.

(** [datetime.strptime(data_string, format)]. *)
Definition strptime (data_string format : string) : result datetime :=
  match pattern format with
  | None => Raise ValueError
  | Some items =>
      match match_items items data_string with
      | None => Raise ValueError
      | Some (found, rest) =>
          if truthy rest then Raise ValueError
          else
            let year := default 1900 (group FY found) in
            let month := default 1 (group Fm found) in
            let day := default 1 (group Fd found) in
            let hour := default 0 (group FH found) in
            let minute := default 0 (group FM found) in
            let second := default 0 (group FS found) in
            if PyTime._check_date_fields year month day
            then PyTime.new year month day hour minute second 0
            else Raise ValueError
      end
  end.

End Strptime.

(** ** The data of [app.py] *)

(** A cell of the data frame returned by [pd.read_excel]: a missing
    value ([NaN], or [NaT] in a date column), or a value given by its
    [str()]. *)
Inductive cell : Type :=
| NaN
| NaT
| Val (s : string).

Definition notna (c : cell) : bool :=
  match c with
  | NaN | NaT => false
  | Val _ => true
  end.

(** [str(c)], also what an f-string prints. *)
Definition str (c : cell) : string :=
  match c with
  | NaN => "nan"
  | NaT => "NaT"
  | Val s => s
  end.

(** A row of the data frame: column name to cell. *)
Abbreviation row := (gmap string cell).

(** [row[col]] *)
Definition getitem (r : row) (col : string) : result cell :=
  match r !! col with
  | Some c => Ok c
  | None => Raise KeyError
  end.

Module Job.

(** The dictionary built from one row (lines 69-77). *)
Record raw : Type := mk_raw {
  raw_id : string;
  raw_jobName : string;
  raw_startTime : string;
  raw_endTime : string;
  raw_dependency : string;
  raw_description : string;
  raw_priority : string
}.

(** The same dictionary once [process_job_data] has added the
    derived keys. [None] is Python's [None]. *)
Record t : Type := mk {
  id : string;
  jobName : string;
  startTime : string;
  endTime : string;
  dependency : string;
  description : string;
  priority : string;
  status : string;
  duration : option string;
  startTimeParsed : option stamp;
  endTimeParsed : option stamp
}.

End Job.

(** The two globals of the module, and the number of times the wall
    clock has been read so far. *)
Record state : Type := mk_state {
  jobs_data : list Job.t;
  last_updated : option datetime;
  ticks : nat
}.

(** What the file system holds when [load_jobs_from_excel] runs:
    [os.path.exists(EXCEL_FILE_PATH)] and the outcome of
    [pd.read_excel(EXCEL_FILE_PATH)]. *)
Record source : Type := mk_source {
  path_exists : bool;
  read_excel : result (list row)
}.

(** Stateful code that may raise: the state survives an exception. *)
Definition py (A : Type) : Type := state -> result A * state.

#[global] Instance py_ret : MRet py := fun A a st => (Ok a, st).
#[global] Instance py_bind : MBind py := fun A B k m st =>
  match m st with
  | (Ok a, st') => k a st'
  | (Raise e, st') => (Raise e, st')
  end.

Definition lift {A} (m : result A) : py A := fun st => (m, st).

Definition py_try {A} (body : py A) (handler : exn -> py A) : py A :=
  fun st =>
    match body st with
    | (Ok a, st') => (Ok a, st')
    | (Raise e, st') => handler e st'
    end.

Definition set_jobs_data (jobs : list Job.t) : py unit :=
  fun st => (Ok tt, mk_state jobs (last_updated st) (ticks st)).

Definition set_last_updated (t : option datetime) : py unit :=
  fun st => (Ok tt, mk_state (jobs_data st) t (ticks st)).

Definition get_jobs_data : py (list Job.t) := fun st => (Ok (jobs_data st), st).

(** A flask response: the JSON body with status 200, or the error
    message with status 500. *)
Inductive response (A : Type) : Type :=
| Http200 (body : A)
| Http500 (error : string).

Arguments Http200 {A} body.
Arguments Http500 {A} error.

(** [request.args] of [/api/jobs]. *)
Record jobs_args : Type := mk_args {
  arg_search : option string;
  arg_status : option string;
  arg_priority : option string;
  arg_page : option string;
  arg_pageSize : option string
}.

Record jobs_page : Type := mk_page {
  page_jobs : list Job.t;
  totalCount : nat;
  lastUpdated : option datetime;
  dataSource : string
}.

Module Alert.
Record t : Type := mk {
  type : string;
  message : string;
  jobs : list string;
  severity : string
}.
End Alert.

Record alerts_body : Type := mk_alerts {
  alerts : list Alert.t;
  timestamp : datetime
}.

(** [l[start:stop]] for any two integers. *)
Definition slice_index (n i : Z) : Z :=
  if i <? 0 then Z.max (i + n) 0 else Z.min i n.

Definition slice {A} (l : list A) (start stop : Z) : list A :=
  let n := Z.of_nat (length l) in
  let a := slice_index n start in
  let b := slice_index n stop in
  take (Z.to_nat (b - a)) (drop (Z.to_nat a) l).

(** ** The functions of [app.py] *)

Definition formats : list string :=
  [ "%Y-%m-%dT%H:%M:%S";
    "%Y-%m-%d %H:%M:%S";
    "%Y-%m-%d";
    "%m/%d/%Y %H:%M:%S";
    "%m/%d/%Y" ].

Section Parser.

(** [pd.to_datetime] on a string, as it answers when [parse_datetime]
    calls it: a scalar or an exception. *)
Variable pd_to_datetime : string -> result Pd.scalar.

(** The loop of lines 115-119 on what is left of [formats], then
    line 122: the first format that parses returns; a [ValueError]
    moves on to the next format, any other exception leaves the loop. *)
Fixpoint try_formats (fmts : list string) (datetime_str : string)
  : result stamp :=
  match fmts with
  | [] => x ← pd_to_datetime (PyStr.strip datetime_str); Ok (Pandas x)
  | fmt :: fmts' =>
      match Strptime.strptime (PyStr.strip datetime_str) fmt with
      | Ok t => Ok (Py t)
      | Raise ValueError => try_formats fmts' datetime_str
      | Raise e => Raise e
      end
  end.

Definition parse_datetime (datetime_str : string) : result (option stamp) :=
  if negb (PyStr.truthy datetime_str)
     || String.eqb (PyStr.strip datetime_str) ""
  then Ok None
  else
    try_except
      (t ← try_formats formats datetime_str; Ok (Some t))
      (fun e => Ok None).

End Parser.

Section App.

(** [pd.to_datetime] on a string. What it answers may depend on the
    time of the call ("now", "today"): it is given for each call, the
    one for the start time ([false]) and the one for the end time
    ([true]) of the row that is built after [n] readings of the clock. *)
Variable pd_to_datetime : nat -> bool -> string -> result Pd.scalar.

(** [(a - b).total_seconds()] when [a] or [b] is a scalar of pandas:
    a float (a NaN with [NaT]), or the exception of the subtraction
    (a [TypeError] between a naive and a zone-aware time). *)
Variable pd_total_seconds : stamp -> stamp -> result PyFloat.float.

(** [str(t.timestamp())], the float printed in a job's id. *)
Variable timestamp_str : datetime -> string.

(** The wall clock: what the [n]-th call of [datetime.now()] returns. *)
Variable clock : nat -> datetime.

(** [datetime.now()] *)
Definition datetime_now : py datetime :=
  fun st => (Ok (clock (ticks st)),
             mk_state (jobs_data st) (last_updated st) (S (ticks st))).

(** The number of readings of the clock made so far: the time at
    which the code that follows runs. *)
Definition get_ticks : py nat := fun st => (Ok (ticks st), st).

(** [a - b] *)
Definition sub (a b : stamp) : result span :=
  match a, b with
  | Py a, Py b => d ← PyTime.sub a b; Ok (Timedelta d)
  | _, _ => x ← pd_total_seconds a b; Ok (Seconds x)
  end.

Definition calculate_duration (start_time end_time : option stamp)
  : result (option string) :=
  match start_time with
  | None => Ok None
  | Some start_time =>
      match end_time with
      | None => Ok (Some "Running")
      | Some end_time =>
          try_except
            (duration ← sub end_time start_time;
             if seconds_lt duration 0 then Ok (Some "Invalid")
             else
               minutes ← PyFloat.int (PyFloat.div_int (total_seconds duration) 60);
               let hours := minutes / 60 in
               if 0 <? hours
               then Ok (Some (PyStr.of_int hours ++ "h "
                              ++ PyStr.of_int (minutes mod 60) ++ "m"))
               else Ok (Some (PyStr.of_int minutes ++ "m")))
            (fun e => Ok (Some "Invalid"))
      end
  end.

Definition determine_status (start_time end_time : option stamp)
  : result string :=
  match start_time with
  | None => Ok "failed"
  | Some start_time =>
      match end_time with
      | None => Ok "running"
      | Some end_time =>
          try_except
            (duration ← sub end_time start_time;
             if seconds_gt duration (2 * 60 * 60)
             then Ok "delayed"
             else Ok "completed")
            (fun e => Ok "failed")
      end
  end.

(** [process_job_data], called after [moment] readings of the clock. *)
Definition process_job_data (moment : nat) (job : Job.raw) : result Job.t :=
  start_time ← parse_datetime (pd_to_datetime moment false) (Job.raw_startTime job);
  end_time ← parse_datetime (pd_to_datetime moment true) (Job.raw_endTime job);
  status ← determine_status start_time end_time;
  duration ← calculate_duration start_time end_time;
  Ok (Job.mk (Job.raw_id job) (Job.raw_jobName job)
             (Job.raw_startTime job) (Job.raw_endTime job)
             (Job.raw_dependency job) (Job.raw_description job)
             (Job.raw_priority job)
             status duration start_time end_time).

(** [str(row[col]).strip() if pd.notna(row[col]) else dflt] *)
Definition field (r : row) (col dflt : string) : result string :=
  c ← getitem r col;
  if notna c
  then c' ← getitem r col; Ok (PyStr.strip (str c'))
  else Ok dflt.

(** The body of the loop of [load_jobs_from_excel] (lines 69-78):
    the dictionary of one row, then [process_job_data], whose calls of
    [pd.to_datetime] come after the clock reading of the id. *)
Definition row_to_job (index : nat) (r : row) : py Job.t :=
  name ← lift (getitem r "jobName");
  now ← datetime_now;
  let id := str name ++ "_" ++ PyStr.of_nat index ++ "_" ++ timestamp_str now in
  jobName ← lift (field r "jobName" "");
  startTime ← lift (field r "startTime" "");
  endTime ← lift (field r "endTime" "");
  dependency ← lift (field r "dependency" "");
  description ← lift (field r "description" "");
  priority ← lift (field r "priority" "normal");
  moment ← get_ticks;
  lift (process_job_data moment
          (Job.mk_raw id jobName startTime endTime dependency description priority)).

(** [for index, row in df.iterrows(): ... jobs.append(...)] *)
Fixpoint iterrows (df : list row) (index : nat) (jobs : list Job.t)
  : py (list Job.t) :=
  match df with
  | [] => mret jobs
  | r :: df' =>
      job ← row_to_job index r;
      iterrows df' (S index) (jobs ++ [job])
  end.

Definition load_jobs_from_excel (src : source) : py unit :=
  py_try
    (if negb (path_exists src) then
       _ ← set_jobs_data [];
       now ← datetime_now;
       set_last_updated (Some now)
     else
       df ← lift (read_excel src);
       jobs ← iterrows df 0 [];
       _ ← set_jobs_data jobs;
       now ← datetime_now;
       set_last_updated (Some now))
    (fun e =>
       _ ← set_jobs_data [];
       now ← datetime_now;
       set_last_updated (Some now)).

(** [int(request.args.get(key, dflt))] *)
Definition int_arg (a : option string) (dflt : Z) : result Z :=
  match a with
  | Some s => PyStr.int s
  | None => Ok dflt
  end.

(** [if a and a != 'all'] *)
Definition selects (a : option string) : option string :=
  match a with
  | Some s => if PyStr.truthy s && negb (String.eqb s "all") then Some s else None
  | None => None
  end.

Definition matches_search (search_term : string) (job : Job.t) : bool :=
  PyStr.contains search_term (PyStr.lower (Job.jobName job))
  || PyStr.contains search_term (PyStr.lower (Job.dependency job))
  || (PyStr.truthy (Job.description job)
      && PyStr.contains search_term (PyStr.lower (Job.description job))).

(** Lines 230-247, shared with [export_jobs]: the three filters. *)
Definition filtered_jobs (a : jobs_args) (jobs_data : list Job.t) : list Job.t :=
  let filtered_jobs := jobs_data in
  let filtered_jobs :=
    match arg_search a with
    | Some search =>
        if PyStr.truthy search
        then List.filter (matches_search (PyStr.lower search)) filtered_jobs
        else filtered_jobs
    | None => filtered_jobs
    end in
  let filtered_jobs :=
    match selects (arg_status a) with
    | Some status =>
        List.filter (fun job => String.eqb (Job.status job) status) filtered_jobs
    | None => filtered_jobs
    end in
  match selects (arg_priority a) with
  | Some priority =>
      List.filter (fun job => String.eqb (Job.priority job) priority) filtered_jobs
  | None => filtered_jobs
  end.

Definition get_jobs (a : jobs_args) (st : state) : response jobs_page :=
  let body :=
    page ← int_arg (arg_page a) 1;
    page_size ← int_arg (arg_pageSize a) 50;
    let filtered_jobs := filtered_jobs a (jobs_data st) in
    let total_count := length filtered_jobs in
    let start_idx := (page - 1) * page_size in
    let end_idx := start_idx + page_size in
    let paginated_jobs := slice filtered_jobs start_idx end_idx in
    Ok (mk_page paginated_jobs total_count (last_updated st) "excel") in
  match body with
  | Ok json => Http200 json
  | Raise e => Http500 "Internal server error"
  end.

(** The loop of lines 395-400. *)
Fixpoint long_running (jobs : list Job.t) (long_running_jobs : list Job.t)
  : py (list Job.t) :=
  match jobs with
  | [] => mret long_running_jobs
  | job :: jobs' =>
      match String.eqb (Job.status job) "running", Job.startTimeParsed job with
      | true, Some start =>
          now ← datetime_now;
          running_time ← lift (sub (Py now) start);
          if seconds_gt running_time (3 * 60 * 60)
          then long_running jobs' (long_running_jobs ++ [job])
          else long_running jobs' long_running_jobs
      | _, _ => long_running jobs' long_running_jobs
      end
  end.

Definition with_status (s : string) (jobs : list Job.t) : list Job.t :=
  List.filter (fun job => String.eqb (Job.status job) s) jobs.

Definition delayed_alert (delayed_jobs : list Job.t) : Alert.t :=
  Alert.mk "warning"
    (PyStr.of_nat (length delayed_jobs) ++ " job(s) are running longer than expected")
    (map Job.jobName delayed_jobs) "medium".

Definition failed_alert (failed_jobs : list Job.t) : Alert.t :=
  Alert.mk "error"
    (PyStr.of_nat (length failed_jobs) ++ " job(s) have failed to start")
    (map Job.jobName failed_jobs) "high".

Definition long_running_alert (long_running_jobs : list Job.t) : Alert.t :=
  Alert.mk "info"
    (PyStr.of_nat (length long_running_jobs)
     ++ " job(s) have been running for more than 3 hours")
    (map Job.jobName long_running_jobs) "low".

(** [if jobs: alerts.append(alert)] *)
Definition append_if (jobs : list Job.t) (alert : list Job.t -> Alert.t)
  (alerts : list Alert.t) : list Alert.t :=
  match jobs with
  | [] => alerts
  | _ :: _ => alerts ++ [alert jobs]
  end.

Definition get_alerts : py (response alerts_body) :=
  py_try
    (jobs_data ← get_jobs_data;
     let alerts := [] in
     let delayed_jobs := with_status "delayed" jobs_data in
     let failed_jobs := with_status "failed" jobs_data in
     long_running_jobs ← long_running jobs_data [];
     let alerts := append_if delayed_jobs delayed_alert alerts in
     let alerts := append_if failed_jobs failed_alert alerts in
     let alerts := append_if long_running_jobs long_running_alert alerts in
     now ← datetime_now;
     mret (Http200 (mk_alerts alerts now)))
    (fun e => mret (Http500 "Internal server error")).

End App.

(** ** Instances used to run the model *)

(** A fallback parser that rejects every string. *)
Definition no_fallback : nat -> bool -> string -> result Pd.scalar :=
  fun _ _ _ => Raise ValueError.

(** No scalar of pandas, so no arithmetic on them. *)
Definition no_pandas : stamp -> stamp -> result PyFloat.float :=
  fun _ _ => Raise OtherException.

(** A clock that advances by one second at each reading, from noon of
    2024-03-21. *)
Definition second_clock : nat -> datetime :=
  fun n => mk_datetime 2024 3 21 12 (Z.of_nat n / 60) (Z.of_nat n mod 60) 0.

Definition no_stamp : datetime -> string := fun _ => "0.0".

Definition empty_state : state := mk_state [] None 0.

(** The first row of the sample sheet written by [setup.py], as read
    back: its empty dependency is a missing cell. *)
Definition daily_etl : row :=
  <["jobName" := Val "Daily_ETL"]>
  (<["startTime" := Val "2024-03-20T00:00:00"]>
  (<["endTime" := Val "2024-03-20T01:00:00"]>
  (<["dependency" := NaN]>
  (<["description" := Val "Daily data extraction and transformation"]>
  (<["priority" := Val "high"]> ∅))))).

(** ** Definitions used in the statements *)

Definition seconds (n : Z) : timedelta := n * 1000000.

(** What [field] returns once the cell is found. *)
Definition cell_text (c : cell) (dflt : string) : string :=
  if notna c then PyStr.strip (str c) else dflt.

(** A cell that is missing, empty or made of white space only. *)
Definition blank (c : cell) : Prop :=
  match c with
  | NaN | NaT => True
  | Val s => PyStr.strip s = ""
  end.

(** The six columns that [load_jobs_from_excel] reads from a row. *)
Definition cells (r : row) (name start stop dep desc prio : cell) : Prop :=
  r !! "jobName" = Some name /\ r !! "startTime" = Some start
  /\ r !! "endTime" = Some stop /\ r !! "dependency" = Some dep
  /\ r !! "description" = Some desc /\ r !! "priority" = Some prio.


(** [int(duration.total_seconds() / 60)], the minutes that
    [calculate_duration] formats. *)
Definition minutes (duration : span) : result Z :=
  PyFloat.int (PyFloat.div_int (total_seconds duration) 60).


(** The row ["X", "", ""] of the specification, with a start cell of
    white space. *)
Definition blank_row : row :=
  <["jobName" := Val "X"]>
  (<["startTime" := Val "  "]>
  (<["endTime" := NaN]>
  (<["dependency" := NaN]>
  (<["description" := NaN]>
  (<["priority" := NaN]> ∅))))).

(** A row whose priority cell holds three spaces. *)
Definition spaces_priority_row : row :=
  <["priority" := Val "   "]> daily_etl.

(** The Daily_ETL job with its two times exchanged. *)
Definition backwards_job : Job.raw :=
  Job.mk_raw "Daily_ETL_0_0.0" "Daily_ETL" "2024-03-20T01:00:00"
    "2024-03-20T00:00:00" "" "" "high".

(** A job that starts at midnight of 2024-03-20 and ends at the time
    given. *)
Definition report_job (endTime : string) : Job.raw :=
  Job.mk_raw "Report_1_0.0" "Report" "2024-03-20T00:00:00" endTime
    "Daily_ETL" "" "normal".

(** The same request for another page. *)
Definition with_page (a : jobs_args) (page : option string) : jobs_args :=
  mk_args (arg_search a) (arg_status a) (arg_priority a) page (arg_pageSize a).

(** The alert of a triggering set in the words of the specification:
    omitted when the set is empty. *)
Definition emit (jobs : list Job.t) (alert : list Job.t -> Alert.t) : list Alert.t :=
  match jobs with
  | [] => []
  | _ :: _ => [alert jobs]
  end.

(** The job that the Daily_ETL row gives, and a request for page 3 by 2. *)
Definition daily_etl_job : Job.t :=
  Job.mk "Daily_ETL_0_0.0" "Daily_ETL" "2024-03-20T00:00:00"
    "2024-03-20T01:00:00" "" "Daily data extraction and transformation"
    "high" "completed" (Some "1h 0m")
    (Some (Py (mk_datetime 2024 3 20 0 0 0 0)))
    (Some (Py (mk_datetime 2024 3 20 1 0 0 0))).

Definition page_3_by_2 : jobs_args :=
  mk_args (Some "etl") (Some "all") None (Some "3") (Some "2").

(** A job that ran for three hours and one that never started. *)
Definition delayed_job : Job.t :=
  Job.mk "Report_1_0.0" "Report" "2024-03-20T00:00:00"
    "2024-03-20T03:00:00" "Daily_ETL" "" "normal" "delayed" (Some "3h 0m")
    (Some (Py (mk_datetime 2024 3 20 0 0 0 0)))
    (Some (Py (mk_datetime 2024 3 20 3 0 0 0))).

Definition failed_job : Job.t :=
  Job.mk "Backup_2_0.0" "Backup" "" "" "" "" "low" "failed" None None None.

(** A job that has been running since midnight of 2024-03-21, and one
    whose start the fallback parser read with a zone. *)
Definition sync_job : Job.t :=
  Job.mk "Sync_0_0.0" "Sync" "2024-03-21" "" "" "" "normal" "running"
    (Some "Running") (Some (Py (mk_datetime 2024 3 21 0 0 0 0))) None.

Definition aware_job : Job.t :=
  Job.mk "Feed_1_0.0" "Feed" "2024-03-21 00:00:00+00:00" "" "" "" "normal"
    "running" (Some "Running")
    (Some (Pandas (Pd.Timestamp 1710979200000000000 (Some "UTC")))) None.

(** A completed job whose start is [NaT], and the arithmetic of pandas
    on it: every difference with [NaT] is [NaT], of NaN seconds. *)
Definition nat_job : Job.t :=
  Job.mk "Old_2_0.0" "Old" "NaT" "2024-03-20" "" "" "normal" "completed"
    (Some "Invalid") (Some (Pandas Pd.NaT))
    (Some (Py (mk_datetime 2024 3 20 0 0 0 0))).

Definition nat_seconds : stamp -> stamp -> result PyFloat.float :=
  fun _ _ => Ok PyFloat.Nan.

(** A fallback parser that reads "now" as the time of the call, here
    the number of clock readings made so far, and rejects the rest. *)
Definition now_fallback : nat -> bool -> string -> result Pd.scalar :=
  fun moment _ s =>
    if String.eqb s "now" then Ok (Pd.Timestamp (Z.of_nat moment) None)
    else Raise ValueError.

Definition now_row : row :=
  <["startTime" := Val "now"]> daily_etl.

(** ** The other functions of [app.py] *)

(** [s.endswith(suffix)] *)
Fixpoint endswith (s suffix : string) : bool :=
  String.eqb s suffix
  || match s with
     | EmptyString => false
     | String _ r => endswith r suffix
     end.

Module User.
(** An entry of the in-memory user store (lines 28-45). *)
Record t : Type := mk {
  id : Z;
  username : string;
  password : string;
  role : string;
  email : string;
  full_name : string
}.
End User.

(** A value of the JSON body of a request, as far as [login] looks at
    it: a string, or any other value given by its truth value ([None],
    [False], [0] and the empty containers are false). *)
Inductive jvalue : Type :=
| JStr (s : string)
| JOther (truth : bool).

(** The JSON body itself: an object, or a value without [.get]. *)
Inductive body : Type :=
| BObject (m : gmap string jvalue)
| BOther.

Definition jtruthy (v : jvalue) : bool :=
  match v with
  | JStr s => PyStr.truthy s
  | JOther b => b
  end.

(** [data.get(key)]: [None] for a missing key, an [AttributeError]
    when [data] is not a dictionary. *)
Definition dict_get (data : body) (key : string) : result jvalue :=
  match data with
  | BObject m => Ok (default (JOther false) (m !! key))
  | BOther => Raise OtherException
  end.

(** [v.encode('utf-8')]; the bytes are modelled by the string. *)
Definition encode (v : jvalue) : result string :=
  match v with
  | JStr s => Ok s
  | JOther _ => Raise OtherException
  end.

(** What [login] answers: the token and the user with status 200, or
    an error message with its status. *)
Inductive login_response : Type :=
| LoginOk (token : string) (id : Z) (username role : string)
| LoginError (code : Z) (error : string).

Record metrics : Type := mk_metrics {
  m_total : nat;
  m_completed : nat;
  m_running : nat;
  m_failed : nat;
  m_delayed : nat;
  avgRunTimeMinutes : Z;
  m_high : nat;
  m_normal : nat;
  m_low : nat;
  m_lastUpdated : option datetime
}.

Record refresh_body : Type := mk_refresh {
  r_message : string;
  r_count : nat;
  r_lastUpdated : option datetime
}.

(** A record of [csv_data], its keys in the order of the source. *)
Record csv_row : Type := mk_csv_row {
  csv_job_name : string;
  csv_start_time : string;
  csv_end_time : string;
  csv_duration : option string;
  csv_status : string;
  csv_dependencies : string;
  csv_priority : string;
  csv_description : string
}.

Record export_body : Type := mk_export {
  csv_content : string;
  mimetype : string;
  content_disposition : string
}.

Definition get_last_updated : py (option datetime) :=
  fun st => (Ok (last_updated st), st).

(** [sum(1 for job in jobs_data if job[key] == value)] *)
Definition count_status (s : string) (jobs : list Job.t) : nat :=
  length (with_status s jobs).

Definition count_priority (p : string) (jobs : list Job.t) : nat :=
  length (List.filter (fun job => String.eqb (Job.priority job) p) jobs).

(** Lines 281-286. *)
Definition completed_jobs (jobs_data : list Job.t) : list Job.t :=
  List.filter
    (fun job =>
       String.eqb (Job.status job) "completed"
       && match Job.startTimeParsed job with Some _ => true | None => false end
       && match Job.endTimeParsed job with Some _ => true | None => false end)
    jobs_data.

Section Metrics.

Variable pd_total_seconds : stamp -> stamp -> result PyFloat.float.

(** The builtin [sum] of lines 290-293, from the total so far: it adds
    the floats one after the other, from the left (as CPython does up
    to 3.11). Subtracting from or by [None] is a [TypeError]. *)
Fixpoint sum_seconds (completed_jobs : list Job.t) (total : PyFloat.float)
  : result PyFloat.float :=
  match completed_jobs with
  | [] => Ok total
  | job :: jobs =>
      match Job.endTimeParsed job, Job.startTimeParsed job with
      | Some e, Some s =>
          d ← sub pd_total_seconds e s;
          sum_seconds jobs (PyFloat.add total (total_seconds d))
      | _, _ => Raise OtherException
      end
  end.

Definition total_duration (completed_jobs : list Job.t) : result PyFloat.float :=
  sum_seconds completed_jobs (PyFloat.Finite 0 0).

Definition get_metrics (st : state) : response metrics :=
  let jobs_data := jobs_data st in
  let body :=
    let total := length jobs_data in
    let completed := count_status "completed" jobs_data in
    let running := count_status "running" jobs_data in
    let failed := count_status "failed" jobs_data in
    let delayed := count_status "delayed" jobs_data in
    let high_priority := count_priority "high" jobs_data in
    let normal_priority := count_priority "normal" jobs_data in
    let low_priority := count_priority "low" jobs_data in
    let completed_jobs := completed_jobs jobs_data in
    avg ← match completed_jobs with
          | [] => Ok 0
          | _ :: _ =>
              total_duration ← total_duration completed_jobs;
              let avg_duration :=
                PyFloat.div_int
                  (PyFloat.div_int total_duration
                     (Z.of_nat (length completed_jobs))) 60 in
              PyFloat.int avg_duration
          end;
    Ok (mk_metrics total completed running failed delayed avg
          high_priority normal_priority low_priority (last_updated st)) in
  match body with
  | Ok json => Http200 json
  | Raise e => Http500 "Internal server error"
  end.

End Metrics.

(** Lines 356-367. *)
Definition csv_data (filtered_jobs : list Job.t) : list csv_row :=
  map (fun job =>
         mk_csv_row (Job.jobName job) (Job.startTime job) (Job.endTime job)
           (Job.duration job) (Job.status job) (Job.dependency job)
           (Job.priority job)
           (if PyStr.truthy (Job.description job) then Job.description job else ""))
      filtered_jobs.

Section Handlers.

Variable pd_to_datetime : nat -> bool -> string -> result Pd.scalar.
Variable pd_total_seconds : stamp -> stamp -> result PyFloat.float.
Variable timestamp_str : datetime -> string.
Variable clock : nat -> datetime.

(** The two hashes that [bcrypt.hashpw] returned, with a fresh salt,
    when the module was loaded. *)
Variable admin_hash viewer_hash : string.

(** [bcrypt.checkpw(password, hashed)] *)
Variable checkpw : string -> string -> result bool.

(** [create_access_token(identity={'id', 'username', 'role'})] *)
Variable create_access_token : Z -> string -> string -> result string.

(** [pd.DataFrame(csv_data).to_csv(index=False)] *)
Variable to_csv : list csv_row -> result string.

(** [t.strftime("%Y%m%d")] *)
Variable strftime_Ymd : datetime -> string.

Definition users : list User.t :=
  [ User.mk 1 "admin" admin_hash "admin" "admin@example.com"
      "System Administrator";
    User.mk 2 "viewer" viewer_hash "viewer" "viewer@example.com"
      "System Viewer" ].

(** [next((user for user in users if user['username'] == username), None)];
    a value that is not a string equals no user name. *)
Definition get_user_by_username (username : jvalue) : option User.t :=
  match username with
  | JStr s => List.find (fun user => String.eqb (User.username user) s) users
  | JOther _ => None
  end.

(** [login], given the outcome of [request.get_json()]. *)
Definition login (request_json : result body) : login_response :=
  let body :=
    data ← request_json;
    username ← dict_get data "username";
    password ← dict_get data "password";
    if negb (jtruthy username) || negb (jtruthy password)
    then Ok (LoginError 400 "Username and password are required")
    else
      match get_user_by_username username with
      | None => Ok (LoginError 401 "Invalid username or password")
      | Some user =>
          password ← encode password;
          accepted ← checkpw password (User.password user);
          if negb accepted
          then Ok (LoginError 401 "Invalid username or password")
          else
            access_token ← create_access_token (User.id user)
                             (User.username user) (User.role user);
            Ok (LoginOk access_token (User.id user) (User.username user)
                  (User.role user))
      end in
  match body with
  | Ok r => r
  | Raise e => LoginError 500 "Internal server error"
  end.

(** [ExcelFileHandler.on_modified] for an event with path [src_path]. *)
Definition on_modified (src_path : string) (src : source) : py unit :=
  if endswith src_path "input.xlsx"
  then load_jobs_from_excel pd_to_datetime pd_total_seconds timestamp_str clock src
  else mret tt.

Definition refresh_data (src : source) : py (response refresh_body) :=
  py_try
    (_ ← load_jobs_from_excel pd_to_datetime pd_total_seconds timestamp_str clock src;
     jobs_data ← get_jobs_data;
     last_updated ← get_last_updated;
     mret (Http200 (mk_refresh "Data refreshed successfully"
                      (length jobs_data) last_updated)))
    (fun e => mret (Http500 "Failed to refresh data")).

(** [export_jobs]; of [request.args] it reads the three filters. *)
Definition export_jobs (a : jobs_args) : py (response export_body) :=
  py_try
    (jobs_data ← get_jobs_data;
     let filtered_jobs := filtered_jobs a jobs_data in
     let csv_data := csv_data filtered_jobs in
     csv_content ← lift (to_csv csv_data);
     now ← datetime_now clock;
     mret (Http200 (mk_export csv_content "text/csv"
                      ("attachment; filename=tidal_jobs_export_"
                       ++ strftime_Ymd now ++ ".csv"))))
    (fun e => mret (Http500 "Failed to export data")).

End Handlers.

(** A timestamp whose fields are in the ranges that the constructor of
    [datetime] accepts. *)
Definition valid_datetime (t : datetime) : Prop :=
  1 <= PyTime.year t <= 9999 /\ 1 <= PyTime.month t <= 12
  /\ 1 <= PyTime.day t <= PyTime._days_in_month (PyTime.year t) (PyTime.month t)
  /\ 0 <= PyTime.hour t <= 23 /\ 0 <= PyTime.minute t <= 59
  /\ 0 <= PyTime.second t <= 59 /\ 0 <= PyTime.microsecond t <= 999999.

(** A row that has the six columns. *)
Definition complete (r : row) : Prop :=
  is_Some (r !! "jobName") /\ is_Some (r !! "startTime")
  /\ is_Some (r !! "endTime") /\ is_Some (r !! "dependency")
  /\ is_Some (r !! "description") /\ is_Some (r !! "priority").

(** The job [j] carries the trimmed cells of the row [r]. *)
Definition built_from (r : row) (j : Job.t) : Prop :=
  exists name start stop dep desc prio,
    cells r name start stop dep desc prio
    /\ Job.jobName j = cell_text name ""
    /\ Job.startTime j = cell_text start ""
    /\ Job.endTime j = cell_text stop ""
    /\ Job.dependency j = cell_text dep ""
    /\ Job.description j = cell_text desc ""
    /\ Job.priority j = cell_text prio "normal".

(** A time cell that the fallback parser is not asked about: it is
    blank, or one of the five formats accepts it. *)
Definition settled (c : cell) : Prop :=
  PyStr.strip (cell_text c "") = ""
  \/ exists fmt t,
       In fmt formats
       /\ Strptime.strptime (PyStr.strip (cell_text c "")) fmt = Ok t.

Definition settled_row (r : row) : Prop :=
  forall c, r !! "startTime" = Some c \/ r !! "endTime" = Some c -> settled c.

(** A job without its id. *)
Definition erase_id (j : Job.t) : Job.t :=
  Job.mk "" (Job.jobName j) (Job.startTime j) (Job.endTime j)
    (Job.dependency j) (Job.description j) (Job.priority j) (Job.status j)
    (Job.duration j) (Job.startTimeParsed j) (Job.endTimeParsed j).

(** Two outcomes that are both exceptions, or jobs equal but for their id. *)
Definition same_fields (r1 r2 : result Job.t) : Prop :=
  match r1, r2 with
  | Ok j1, Ok j2 => erase_id j1 = erase_id j2
  | Raise _, Raise _ => True
  | _, _ => False
  end.

Definition same_jobs (r1 r2 : result (list Job.t)) : Prop :=
  match r1, r2 with
  | Ok l1, Ok l2 => map erase_id l1 = map erase_id l2
  | Raise _, Raise _ => True
  | _, _ => False
  end.

(** What [row_to_job] does once the id is known. *)
Definition row_fields (pd_to_datetime : nat -> bool -> string -> result Pd.scalar)
  (pd_total_seconds : stamp -> stamp -> result PyFloat.float)
  (moment : nat) (r : row) (id : string) : result Job.t :=
  jobName ← field r "jobName" "";
  startTime ← field r "startTime" "";
  endTime ← field r "endTime" "";
  dependency ← field r "dependency" "";
  description ← field r "description" "";
  priority ← field r "priority" "normal";
  process_job_data pd_to_datetime pd_total_seconds moment
    (Job.mk_raw id jobName startTime endTime dependency description priority).




(** The request [a] with another search term. *)
Definition with_search (a : jobs_args) (search : option string) : jobs_args :=
  mk_args search (arg_status a) (arg_priority a) (arg_page a) (arg_pageSize a).

(** A job whose status is one of the four that [determine_status]
    returns. *)
Definition four_statuses (j : Job.t) : Prop :=
  Job.status j = "failed" \/ Job.status j = "running"
  \/ Job.status j = "delayed" \/ Job.status j = "completed".

(** The jobs whose start [get_alerts] compares with the clock. *)
Definition timed_running (job : Job.t) : bool :=
  String.eqb (Job.status job) "running"
  && match Job.startTimeParsed job with Some _ => true | None => false end.

(** Unfolds the monads of the model. *)
Ltac run_py :=
  unfold mbind, mret, py_bind, py_ret, result_bind, rbind, lift,
    set_jobs_data, set_last_updated, get_jobs_data, datetime_now,
    get_ticks; simpl.

(** ** Properties *)

(** *** Floats *)

Lemma nearest_bounds (n d : Z) :
  0 < d -> n / d <= PyFloat.nearest n d <= n / d + 1.
Proof.
  intros H. unfold PyFloat.nearest.
  destruct (2 * (n mod d) <? d); [lia|].
  destruct (d <? 2 * (n mod d)); [lia|].
  destruct (Z.even (n / d)); lia.
Qed.

Lemma nearest_exact (n d : Z) :
  0 < d -> n mod d = 0 -> PyFloat.nearest n d = n / d.
Proof.
  intros Hd H. unfold PyFloat.nearest. rewrite H.
  destruct (Z.ltb_spec (2 * 0) d); [reflexivity|lia].
Qed.

Lemma exponent_bounds (n d : Z) :
  Z.log2 n - Z.log2 d - 53 <= PyFloat.exponent n d
  <= Z.log2 n - Z.log2 d - 52.
Proof.
  unfold PyFloat.exponent.
  destruct (PyFloat.scale n d _) as [n' d']. destruct (_ <? _); lia.
Qed.

(** At an exponent that is not above the one of [exponent], the scaled
    quotient is at least 2^51. *)
Lemma scale_large (n d e : Z) :
  0 < n -> 0 < d -> e <= Z.log2 n - Z.log2 d - 52 ->
  0 < snd (PyFloat.scale n d e)
  /\ 2 ^ 51 * snd (PyFloat.scale n d e) <= fst (PyFloat.scale n d e).
Proof.
  intros Hn Hd He.
  destruct (Z.log2_spec n Hn) as [Hn1 _].
  destruct (Z.log2_spec d Hd) as [_ Hd2].
  pose proof (Z.log2_nonneg n) as Hln. pose proof (Z.log2_nonneg d) as Hld.
  unfold PyFloat.scale. destruct (Z.leb_spec 0 e) as [H0|H0]; cbn [fst snd].
  - assert (Hp : 0 < 2 ^ e) by (apply Z.pow_pos_nonneg; lia).
    split; [nia|].
    assert (Hle : 2 ^ 51 * (2 ^ Z.succ (Z.log2 d) * 2 ^ e) <= 2 ^ Z.log2 n).
    { rewrite <- !Z.pow_add_r by lia. apply Z.pow_le_mono_r; lia. }
    assert (d * 2 ^ e <= 2 ^ Z.succ (Z.log2 d) * 2 ^ e) by nia.
    lia.
  - split; [lia|].
    assert (Hle : 2 ^ 51 * 2 ^ Z.succ (Z.log2 d) <= 2 ^ Z.log2 n * 2 ^ (- e)).
    { rewrite <- !Z.pow_add_r by lia. apply Z.pow_le_mono_r; lia. }
    assert (Hp : 0 < 2 ^ (- e)) by (apply Z.pow_pos_nonneg; lia).
    assert (2 ^ Z.log2 n * 2 ^ (- e) <= n * 2 ^ (- e)) by nia.
    lia.
Qed.

(** The three shapes of a rounded quotient that is not subnormal: an
    infinity or a multiple of 2^e for a large one, a multiple of 2^-k
    for one below 2^53. Its 53 bits are at least 2^51. *)
Lemma round_quotient_shape (n d : Z) :
  0 < n -> 0 < d -> - 1074 <= Z.log2 n - Z.log2 d - 53 ->
  (exists e,
     0 <= e /\ 2 ^ 51 * (d * 2 ^ e) <= n
     /\ (PyFloat.round_quotient n d = PyFloat.Inf false
         \/ exists m, PyFloat.round_quotient n d = PyFloat.Finite m e
                      /\ 2 ^ 51 <= m))
  \/ (exists k,
        0 < k /\ 2 ^ 51 * d <= n * 2 ^ k
        /\ PyFloat.round_quotient n d
           = PyFloat.Finite (PyFloat.nearest (n * 2 ^ k) d) (- k)).
Proof.
  intros Hn Hd Hlog. unfold PyFloat.round_quotient.
  destruct (Z.eqb_spec n 0); [lia|].
  pose proof (exponent_bounds n d) as He.
  rewrite Z.max_l by lia.
  set (e := PyFloat.exponent n d) in *.
  destruct (scale_large n d e Hn Hd ltac:(lia)) as [Hpos Hbig].
  unfold PyFloat.scale in *. destruct (Z.leb_spec 0 e) as [H0|H0];
    cbn [fst snd] in Hpos, Hbig; cbv beta iota zeta; cbn [andb].
  - left. exists e. split; [exact H0|]. split; [exact Hbig|].
    destruct (2 ^ 1024 <=? _); [left; reflexivity|].
    right. eexists. split; [reflexivity|].
    pose proof (nearest_bounds n (d * 2 ^ e) Hpos).
    assert (2 ^ 51 <= n / (d * 2 ^ e)) by (apply Z.div_le_lower_bound; lia).
    lia.
  - right. exists (- e). split; [lia|]. split; [exact Hbig|].
    rewrite Z.opp_involutive. reflexivity.
Qed.


Lemma log2_million (n : Z) :
  0 < n -> - 1074 <= Z.log2 n - Z.log2 1000000 - 53.
Proof.
  intros Hn. pose proof (Z.log2_nonneg n).
  change (Z.log2 1000000) with 19. lia.
Qed.

(** Rounding the seconds of a [timedelta] to a double does not change
    how they compare with a whole number below 2^14. *)
Lemma total_seconds_gt (d : timedelta) (n : Z) :
  0 <= n < 2 ^ 14 ->
  PyFloat.gt (PyTime.total_seconds d) n = (n * 1000000 <? d).
Proof.
  intros Hn. change (2 ^ 14) with 16384 in Hn.
  unfold PyTime.total_seconds, PyFloat.true_div.
  destruct (Z.ltb_spec d 0) as [Hneg|Hpos].
  - destruct (Z.ltb_spec (n * 1000000) d); [lia|].
    destruct (round_quotient_shape (- d) 1000000 ltac:(lia) ltac:(lia)
                (log2_million (- d) ltac:(lia)))
      as [(e & He & Hbig & [->|(m & -> & Hm)])|(k & Hk & Hbig & ->)]; simpl.
    + reflexivity.
    + destruct (Z.leb_spec 0 e); [|lia]. apply Z.ltb_ge.
      assert (0 < 2 ^ e) by (apply Z.pow_pos_nonneg; lia).
      change (2 ^ 51) with 2251799813685248 in Hm. nia.
    + destruct (Z.leb_spec 0 (- k)); [lia|]. apply Z.ltb_ge.
      rewrite Z.opp_involutive.
      assert (0 < 2 ^ k) by (apply Z.pow_pos_nonneg; lia).
      pose proof (nearest_bounds (- d * 2 ^ k) 1000000 ltac:(lia)).
      assert (0 <= - d * 2 ^ k / 1000000) by (apply Z.div_pos; nia).
      nia.
  - destruct (Z.eq_dec d 0) as [->|Hne].
    { simpl. destruct (Z.ltb_spec (n * 1000000) 0); [lia|].
      apply Z.ltb_ge. lia. }
    change (2 ^ 51) with 2251799813685248 in *.
    destruct (round_quotient_shape d 1000000 ltac:(lia) ltac:(lia)
                (log2_million d ltac:(lia)))
      as [(e & He & Hbig & Hr)|(k & Hk & Hbig & ->)].
    + change (2 ^ 51) with 2251799813685248 in *.
      assert (Hp : 0 < 2 ^ e) by (apply Z.pow_pos_nonneg; lia).
      assert (Hd : n * 1000000 < d) by nia.
      destruct (Z.ltb_spec (n * 1000000) d); [|lia].
      destruct Hr as [->|(m & -> & Hm)]; [reflexivity|]. simpl.
      destruct (Z.leb_spec 0 e); [|lia]. apply Z.ltb_lt. nia.
    + change (2 ^ 51) with 2251799813685248 in *.
      simpl. destruct (Z.leb_spec 0 (- k)); [lia|]. rewrite Z.opp_involutive.
      assert (Hp : 0 < 2 ^ k) by (apply Z.pow_pos_nonneg; lia).
      pose proof (nearest_bounds (d * 2 ^ k) 1000000 ltac:(lia)) as Hb.
      pose proof (Z.div_mod (d * 2 ^ k) 1000000 ltac:(lia)) as Hdm.
      pose proof (Z.mod_pos_bound (d * 2 ^ k) 1000000 ltac:(lia)) as Hr.
      set (m := PyFloat.nearest _ _) in *.
      set (F := d * 2 ^ k / 1000000) in *.
      set (r := (d * 2 ^ k) mod 1000000) in *.
      destruct (Z.ltb_spec (n * 1000000) d) as [Hd|Hd].
      * apply Z.ltb_lt.
        assert (HF : n * 2 ^ k <= F) by nia.
        destruct (Z.eq_dec F (n * 2 ^ k)) as [E|E]; [|lia].
        exfalso. nia.
      * apply Z.ltb_ge.
        destruct (Z.eq_dec d (n * 1000000)) as [->|E].
        -- unfold m. replace (n * 1000000 * 2 ^ k) with (n * 2 ^ k * 1000000) by lia.
           rewrite nearest_exact by (lia || apply Z.mod_mul; lia).
           rewrite Z.div_mul by lia. lia.
        -- nia.
Qed.


(** A float below 0 is not above a number that is not negative. *)
Lemma lt_zero_not_gt (x : PyFloat.float) (n : Z) :
  0 <= n -> PyFloat.lt x 0 = true -> PyFloat.gt x n = false.
Proof.
  intros Hn. destruct x as [m e|[|]|]; simpl; try congruence.
  destruct (Z.leb_spec 0 e) as [He|He].
  - assert (Hp : 0 < 2 ^ e) by (apply Z.pow_pos_nonneg; lia).
    intros H%Z.ltb_lt. apply Z.ltb_ge. nia.
  - assert (Hp : 0 < 2 ^ (- e)) by (apply Z.pow_pos_nonneg; lia).
    intros H%Z.ltb_lt. apply Z.ltb_ge. nia.
Qed.

(** The comparisons of [determine_status], [calculate_duration] and
    [get_alerts] on a [timedelta] are those of its microseconds. *)
Lemma seconds_gt_timedelta (d : timedelta) (n : Z) :
  0 <= n < 2 ^ 14 -> seconds_gt (Timedelta d) n = (seconds n <? d).
Proof. intros Hn. unfold seconds_gt, seconds. apply total_seconds_gt, Hn. Qed.




(** *** The model on concrete inputs *)

Example strptime_iso :
  Strptime.strptime "2024-03-20T01:02:03" "%Y-%m-%dT%H:%M:%S"
  = Ok (mk_datetime 2024 3 20 1 2 3 0).
Proof. reflexivity. Qed.

Example strptime_us_date :
  Strptime.strptime "3/7/2024" "%m/%d/%Y" = Ok (mk_datetime 2024 3 7 0 0 0 0).
Proof. reflexivity. Qed.

Example strptime_bad_day :
  Strptime.strptime "2024-02-30" "%Y-%m-%d" = Raise ValueError.
Proof. reflexivity. Qed.

Example strptime_backtracks :
  Strptime.strptime "2024-1-123:2:3" "%Y-%m-%d%H:%M:%S"
  = Ok (mk_datetime 2024 1 12 3 2 3 0).
Proof. reflexivity. Qed.

Example int_underscore : PyStr.int " 1_000 " = Ok 1000 /\ PyStr.int "1__0" = Raise ValueError.
Proof. split; reflexivity. Qed.

(** [int] skips the white space of [str.strip] but for the four
    separators 0x1C to 0x1F. *)
Example int_separator :
  PyStr.int (String (ascii_of_nat 28) "5") = Raise ValueError
  /\ PyStr.strip (String (ascii_of_nat 28) "5") = "5"
  /\ PyStr.int (String (ascii_of_nat 160) "-5") = Ok (-5).
Proof. repeat split; reflexivity. Qed.

(** 1/3, 0.1 + 0.2 and the seconds of a microsecond less than
    19691510460 seconds, as doubles. *)
Example float_third :
  PyFloat.true_div 1 3 = PyFloat.Finite 6004799503160661 (- 54).
Proof. vm_compute. reflexivity. Qed.

Example float_sum :
  PyFloat.add (PyFloat.true_div 1 10) (PyFloat.true_div 2 10)
  = PyFloat.Finite 5404319552844596 (- 54).
Proof. vm_compute. reflexivity. Qed.

Example float_seconds_rounded :
  PyTime.total_seconds 19691510459999999
  = PyFloat.Finite (19691510460 * 2 ^ 18) (- 18).
Proof. vm_compute. reflexivity. Qed.

Example daily_etl_run :
  row_to_job no_fallback no_pandas no_stamp second_clock 0 daily_etl empty_state
  = (Ok (Job.mk "Daily_ETL_0_0.0" "Daily_ETL" "2024-03-20T00:00:00"
           "2024-03-20T01:00:00" "" "Daily data extraction and transformation"
           "high" "completed" (Some "1h 0m")
           (Some (Py (mk_datetime 2024 3 20 0 0 0 0)))
           (Some (Py (mk_datetime 2024 3 20 1 0 0 0)))),
     mk_state [] None 1).
Proof. vm_compute. reflexivity. Qed.

(** A start that the fallback parser read with a zone and an end
    without one cannot be subtracted: the job is "failed", its duration
    "Invalid", and both times are kept. *)
Example aware_start_failed :
  process_job_data
    (fun _ _ _ => Ok (Pd.Timestamp 1710979200000000000 (Some "UTC")))
    no_pandas 1
    (Job.mk_raw "Feed_1_0.0" "Feed" "2024-03-21 00:00:00+00:00"
       "2024-03-21T01:00:00" "" "" "normal")
  = Ok (Job.mk "Feed_1_0.0" "Feed" "2024-03-21 00:00:00+00:00"
          "2024-03-21T01:00:00" "" "" "normal" "failed" (Some "Invalid")
          (Some (Pandas (Pd.Timestamp 1710979200000000000 (Some "UTC"))))
          (Some (Py (mk_datetime 2024 3 21 1 0 0 0)))).
Proof. vm_compute. reflexivity. Qed.

(** A start that the fallback parser read as [NaT]: the difference is
    [NaT], of NaN seconds, so the job is "completed" and its duration
    "Invalid". *)
Example nat_start_completed :
  process_job_data (fun _ _ _ => Ok Pd.NaT) nat_seconds 1
    (Job.mk_raw "Old_2_0.0" "Old" "NaT" "2024-03-20" "" "" "normal")
  = Ok nat_job.
Proof. vm_compute. reflexivity. Qed.

(** *** Helper lemmas *)

Lemma sub_total (a b : datetime) : exists d, PyTime.sub a b = Ok d.
Proof. unfold PyTime.sub. eauto. Qed.

Lemma new_raises (y m d h mi s us : Z) (e : exn) :
  PyTime.new y m d h mi s us = Raise e -> e = ValueError.
Proof. unfold PyTime.new. case (_ && _); congruence. Qed.

Lemma strptime_raises (data_string format : string) (e : exn) :
  Strptime.strptime data_string format = Raise e -> e = ValueError.
Proof.
  unfold Strptime.strptime.
  destruct (Strptime.pattern format) as [items|]; [|congruence].
  destruct (Strptime.match_items items data_string) as [[found rest]|];
    [|congruence].
  destruct (PyStr.truthy rest); [congruence|].
  destruct (PyTime._check_date_fields _ _ _); [|congruence].
  apply new_raises.
Qed.

Lemma strptime_valid (data_string format : string) (t : datetime) :
  Strptime.strptime data_string format = Ok t ->
  valid_datetime t /\ PyTime.microsecond t = 0.
Proof.
  unfold Strptime.strptime.
  destruct (Strptime.pattern format) as [items|]; [|discriminate].
  destruct (Strptime.match_items items data_string) as [[found rest]|];
    [|discriminate].
  destruct (PyStr.truthy rest); [discriminate|].
  destruct (PyTime._check_date_fields _ _ _); [|discriminate].
  unfold PyTime.new.
  destruct (PyTime._check_date_fields _ _ _ && PyTime._check_time_fields _ _ _ _)
    eqn:E; [|discriminate].
  intros [= <-]. unfold valid_datetime. simpl.
  unfold PyTime._check_date_fields, PyTime._check_time_fields,
    PyTime.MINYEAR, PyTime.MAXYEAR in E.
  repeat (apply andb_prop in E as [E ?]).
  repeat match goal with
         | H : (_ <=? _) = true |- _ => apply Z.leb_le in H
         end.
  repeat split; try assumption; try reflexivity; lia.
Qed.

Lemma field_found (r : row) (col dflt : string) (c : cell) :
  r !! col = Some c -> field r col dflt = Ok (cell_text c dflt).
Proof.
  intros H. unfold field, getitem, cell_text. rewrite H. simpl.
  destruct (notna c); reflexivity.
Qed.

Lemma blank_text (c : cell) : blank c -> cell_text c "" = "".
Proof. destruct c; simpl; auto. Qed.




Section Parsing.

Variable pd_to_datetime : string -> result Pd.scalar.

Local Abbreviation parse := (parse_datetime pd_to_datetime).

Lemma parse_datetime_blank (s : string) :
  PyStr.strip s = "" -> parse s = Ok None.
Proof.
  intros H. unfold parse_datetime. rewrite H. simpl.
  rewrite orb_true_r. reflexivity.
Qed.

Lemma parse_datetime_total (s : string) :
  exists v, parse s = Ok v.
Proof.
  unfold parse_datetime.
  destruct (negb (PyStr.truthy s) || (PyStr.strip s =? "")%string); [eauto|].
  destruct (try_formats pd_to_datetime formats s); simpl; eauto.
Qed.

Lemma try_formats_all_fail (s : string) (fmts : list string) :
  Forall (fun fmt => exists e, Strptime.strptime (PyStr.strip s) fmt = Raise e) fmts ->
  (exists e, pd_to_datetime (PyStr.strip s) = Raise e) ->
  exists e, try_formats pd_to_datetime fmts s = Raise e.
Proof.
  intros Hall [e0 Hpd]. induction Hall as [|fmt fmts [e He] _ IH]; simpl.
  - rewrite Hpd. simpl. eauto.
  - rewrite He. rewrite (strptime_raises _ _ _ He). exact IH.
Qed.

Lemma try_formats_origin (fmts : list string) (s : string) (t : stamp) :
  try_formats pd_to_datetime fmts s = Ok t ->
  (exists t' fmt, t = Py t' /\ In fmt fmts
                  /\ Strptime.strptime (PyStr.strip s) fmt = Ok t')
  \/ (exists x, t = Pandas x /\ pd_to_datetime (PyStr.strip s) = Ok x).
Proof.
  induction fmts as [|fmt fmts IH]; simpl.
  - destruct (pd_to_datetime (PyStr.strip s)) as [x|e]; simpl; [|discriminate].
    intros [= <-]. right. eauto.
  - destruct (Strptime.strptime (PyStr.strip s) fmt) as [t'|e] eqn:E.
    + intros [= <-]. left. exists t', fmt. auto.
    + destruct e; try discriminate.
      intros H. destruct (IH H) as [(t' & f & Ht & Hin & Hf)|Hpd]; [|auto].
      left. exists t', f. auto.
Qed.

(** A [datetime] that [parse_datetime] returns is a valid one, its
    microseconds 0. *)
Lemma parse_datetime_py (s : string) (t : datetime) :
  parse s = Ok (Some (Py t)) ->
  valid_datetime t /\ PyTime.microsecond t = 0
  /\ exists fmt, In fmt formats /\ Strptime.strptime (PyStr.strip s) fmt = Ok t.
Proof.
  unfold parse_datetime.
  destruct (negb (PyStr.truthy s) || (PyStr.strip s =? "")%string);
    [discriminate|].
  destruct (try_formats pd_to_datetime formats s) as [t'|e] eqn:E; simpl;
    [|discriminate].
  intros [= ->].
  destruct (try_formats_origin _ _ _ E) as [(t' & fmt & [= <-] & Hin & Hf)|(x & Hx & _)];
    [|discriminate Hx].
  destruct (strptime_valid _ _ _ Hf) as [Hv Hus].
  split; [exact Hv|]. split; [exact Hus|]. exists fmt. split; assumption.
Qed.

End Parsing.

Section Derivation.

Variable pd_to_datetime : nat -> bool -> string -> result Pd.scalar.
Variable pd_total_seconds : stamp -> stamp -> result PyFloat.float.
Variable timestamp_str : datetime -> string.
Variable clock : nat -> datetime.

Local Abbreviation minus := (sub pd_total_seconds).
Local Abbreviation status_of := (determine_status pd_total_seconds).
Local Abbreviation duration_of := (calculate_duration pd_total_seconds).
Local Abbreviation process := (process_job_data pd_to_datetime pd_total_seconds).
Local Abbreviation build :=
  (row_to_job pd_to_datetime pd_total_seconds timestamp_str clock).

Lemma sub_py (a b : datetime) (d : timedelta) :
  PyTime.sub a b = Ok d -> minus (Py a) (Py b) = Ok (Timedelta d).
Proof. intros H. unfold sub. rewrite H. reflexivity. Qed.


(** [process_job_data] once the two timestamps are known. *)
Lemma process_job_data_parsed (moment : nat) (job : Job.raw)
  (s e : option stamp) (status : string) (duration : option string) :
  parse_datetime (pd_to_datetime moment false) (Job.raw_startTime job) = Ok s ->
  parse_datetime (pd_to_datetime moment true) (Job.raw_endTime job) = Ok e ->
  status_of s e = Ok status ->
  duration_of s e = Ok duration ->
  process moment job
  = Ok (Job.mk (Job.raw_id job) (Job.raw_jobName job)
          (Job.raw_startTime job) (Job.raw_endTime job)
          (Job.raw_dependency job) (Job.raw_description job)
          (Job.raw_priority job) status duration s e).
Proof.
  intros Hs He Hst Hd. unfold process_job_data.
  rewrite Hs, He. simpl. rewrite Hst, Hd. reflexivity.
Qed.

Lemma determine_status_total (s e : option stamp) :
  exists st, status_of s e = Ok st.
Proof.
  destruct s as [s|], e as [e|]; simpl; eauto.
  destruct (minus e s) as [d|x]; simpl; eauto.
  destruct (seconds_gt _ _); eauto.
Qed.

Lemma calculate_duration_total (s e : option stamp) :
  exists d, duration_of s e = Ok d.
Proof.
  destruct s as [s|], e as [e|]; simpl; eauto.
  destruct (minus e s) as [d|x]; simpl; eauto.
  destruct (seconds_lt _ _); simpl; eauto.
  destruct (PyFloat.int _); simpl; eauto.
  destruct (0 <? _); eauto.
Qed.

Lemma process_job_data_total (moment : nat) (job : Job.raw) :
  exists j, process moment job = Ok j.
Proof.
  destruct (parse_datetime_total (pd_to_datetime moment false)
              (Job.raw_startTime job)) as [s Hs].
  destruct (parse_datetime_total (pd_to_datetime moment true)
              (Job.raw_endTime job)) as [e He].
  destruct (determine_status_total s e) as [st Hst].
  destruct (calculate_duration_total s e) as [d Hd].
  eexists. eapply process_job_data_parsed; eauto.
Qed.

(** [process_job_data] taken apart. *)
Lemma process_job_data_inv (moment : nat) (job : Job.raw) (j : Job.t) :
  process moment job = Ok j ->
  exists s e st d,
    parse_datetime (pd_to_datetime moment false) (Job.raw_startTime job) = Ok s
    /\ parse_datetime (pd_to_datetime moment true) (Job.raw_endTime job) = Ok e
    /\ status_of s e = Ok st /\ duration_of s e = Ok d
    /\ j = Job.mk (Job.raw_id job) (Job.raw_jobName job)
             (Job.raw_startTime job) (Job.raw_endTime job)
             (Job.raw_dependency job) (Job.raw_description job)
             (Job.raw_priority job) st d s e.
Proof.
  unfold process_job_data. intros H.
  destruct (parse_datetime _ (Job.raw_startTime job)) as [s|]; simpl in H;
    [|discriminate].
  destruct (parse_datetime _ (Job.raw_endTime job)) as [e|]; simpl in H;
    [|discriminate].
  destruct (status_of s e) as [st|] eqn:Hst; simpl in H; [|discriminate].
  destruct (duration_of s e) as [d|] eqn:Hd; simpl in H; [|discriminate].
  inversion H. exists s, e, st, d. repeat split; assumption.
Qed.

(** [process_job_data] leaves the priority of the row as it is. *)
Lemma process_job_data_keeps (moment : nat) (job : Job.raw) (j : Job.t) :
  process moment job = Ok j -> Job.priority j = Job.raw_priority job.
Proof.
  intros H.
  destruct (process_job_data_inv _ _ _ H) as (s & e & st & d & _ & _ & _ & _ & ->).
  reflexivity.
Qed.

(** [row_to_job] on a row that has the six columns: one reading of
    the clock, then [process_job_data] on the trimmed cells. *)
Lemma row_to_job_found (index : nat) (r : row) (st : state)
  (name start stop dep desc prio : cell) :
  cells r name start stop dep desc prio ->
  build index r st
  = (process (S (ticks st))
       (Job.mk_raw
          (str name ++ "_" ++ PyStr.of_nat index ++ "_"
           ++ timestamp_str (clock (ticks st)))
          (cell_text name "") (cell_text start "") (cell_text stop "")
          (cell_text dep "") (cell_text desc "") (cell_text prio "normal")),
     mk_state (jobs_data st) (last_updated st) (S (ticks st))).
Proof.
  intros (H1 & H2 & H3 & H4 & H5 & H6).
  unfold row_to_job.
  rewrite (field_found _ _ _ _ H1), (field_found _ _ _ _ H2),
    (field_found _ _ _ _ H3), (field_found _ _ _ _ H4),
    (field_found _ _ _ _ H5), (field_found _ _ _ _ H6).
  unfold getitem. rewrite H1. run_py. reflexivity.
Qed.

Lemma determine_status_sub (s e : stamp) (duration : span) :
  minus e s = Ok duration ->
  status_of (Some s) (Some e)
  = Ok (if seconds_gt duration (2 * 60 * 60) then "delayed" else "completed").
Proof.
  intros H. unfold determine_status. rewrite H. simpl.
  destruct (seconds_gt _ _); reflexivity.
Qed.

Lemma determine_status_raise (s e : stamp) (x : exn) :
  minus e s = Raise x -> status_of (Some s) (Some e) = Ok "failed".
Proof. intros H. unfold determine_status. rewrite H. reflexivity. Qed.



Lemma calculate_duration_negative (s e : stamp) (duration : span) :
  minus e s = Ok duration -> seconds_lt duration 0 = true ->
  duration_of (Some s) (Some e) = Ok (Some "Invalid").
Proof.
  intros H Hd. unfold calculate_duration. rewrite H. simpl. rewrite Hd.
  reflexivity.
Qed.

Lemma calculate_duration_raise (s e : stamp) (x : exn) :
  minus e s = Raise x -> duration_of (Some s) (Some e) = Ok (Some "Invalid").
Proof. intros H. unfold calculate_duration. rewrite H. reflexivity. Qed.

End Derivation.


(** *** The derived fields of a job *)

(** C1 (as amended). For every row with jobName "Daily_ETL", startTime
    "2024-03-20T00:00:00", endTime "2024-03-20T01:00:00" and priority
    "high" (whatever its two other cells), the job built has status
    "completed" and duration "1h 0m": sixty minutes are one hour. *)
Theorem daily_etl_completed_1h_0m
  (pd_to_datetime : nat -> bool -> string -> result Pd.scalar)
  (pd_total_seconds : stamp -> stamp -> result PyFloat.float)
  (timestamp_str : datetime -> string) (clock : nat -> datetime)
  (index : nat) (r : row) (dep desc : cell) (st : state) :
  cells r (Val "Daily_ETL") (Val "2024-03-20T00:00:00")
    (Val "2024-03-20T01:00:00") dep desc (Val "high") ->
  exists j st',
    row_to_job pd_to_datetime pd_total_seconds timestamp_str clock index r st
    = (Ok j, st')
    /\ Job.jobName j = "Daily_ETL" /\ Job.priority j = "high"
    /\ Job.status j = "completed" /\ Job.duration j = Some "1h 0m".
Proof.
  intros H. rewrite (row_to_job_found _ _ _ _ _ _ _ _ _ _ _ _ _ H).
  erewrite process_job_data_parsed;
    [ do 2 eexists; split; [reflexivity|]; simpl; repeat split; reflexivity
    | vm_compute; reflexivity .. ].
Qed.

Lemma daily_etl_completed_1h_0m_witness :
  cells daily_etl (Val "Daily_ETL") (Val "2024-03-20T00:00:00")
    (Val "2024-03-20T01:00:00") NaN (Val "Daily data extraction and transformation")
    (Val "high")
  /\ exists j st',
      row_to_job no_fallback no_pandas no_stamp second_clock 0 daily_etl
        empty_state
      = (Ok j, st')
      /\ Job.jobName j = "Daily_ETL" /\ Job.priority j = "high"
      /\ Job.status j = "completed" /\ Job.duration j = Some "1h 0m".
Proof.
  assert (H : cells daily_etl (Val "Daily_ETL") (Val "2024-03-20T00:00:00")
                (Val "2024-03-20T01:00:00") NaN (Val "Daily data extraction and transformation")
    (Val "high"))
    by (repeat split; reflexivity).
  split; [exact H|].
  exact (daily_etl_completed_1h_0m no_fallback no_pandas no_stamp second_clock 0
           daily_etl NaN (Val "Daily data extraction and transformation") empty_state H).
Defined.

(** C1 as the specification states it fails: the job built from the
    Daily_ETL row has not the duration "60m". *)
Lemma daily_etl_duration_not_60m :
  ~ exists j st',
      row_to_job no_fallback no_pandas no_stamp second_clock 0 daily_etl
        empty_state
      = (Ok j, st')
      /\ Job.status j = "completed" /\ Job.duration j = Some "60m".
Proof.
  intros (j & st' & H & _ & Hd). rewrite daily_etl_run in H.
  inversion H; subst. discriminate Hd.
Qed.




(** C3. For every job built from two timestamps that are present and
    can be subtracted, the status is "delayed" exactly when the end is
    more than two hours after the start and "completed" otherwise: for
    two [datetime]s, exactly when it is at most two hours after it. Two
    hours sharp give "completed", two hours and one second "delayed". *)
Theorem status_two_hours
  (pd_to_datetime : nat -> bool -> string -> result Pd.scalar)
  (pd_total_seconds : stamp -> stamp -> result PyFloat.float)
  (moment : nat) (job : Job.raw) (start_time end_time : stamp)
  (duration : span) :
  parse_datetime (pd_to_datetime moment false) (Job.raw_startTime job)
  = Ok (Some start_time) ->
  parse_datetime (pd_to_datetime moment true) (Job.raw_endTime job)
  = Ok (Some end_time) ->
  sub pd_total_seconds end_time start_time = Ok duration ->
  exists j,
    process_job_data pd_to_datetime pd_total_seconds moment job = Ok j
    /\ (Job.status j = "delayed" <-> seconds_gt duration (2 * 60 * 60) = true)
    /\ (Job.status j = "completed" <-> seconds_gt duration (2 * 60 * 60) = false)
    /\ (forall d,
          duration = Timedelta d ->
          (Job.status j = "delayed" <-> seconds (2 * 60 * 60) < d)
          /\ (Job.status j = "completed" <-> d <= seconds (2 * 60 * 60))
          /\ (d = seconds (2 * 60 * 60) -> Job.status j = "completed")
          /\ (d = seconds (2 * 60 * 60 + 1) -> Job.status j = "delayed")).
Proof.
  intros Hs He Hsub.
  pose proof (determine_status_sub _ _ _ _ Hsub) as Hst.
  destruct (calculate_duration_total pd_total_seconds (Some start_time)
              (Some end_time)) as [dur Hdur].
  eexists.
  split; [exact (process_job_data_parsed _ _ _ _ _ _ _ _ Hs He Hst Hdur)|].
  cbn [Job.status].
  assert (Hd : forall d, duration = Timedelta d ->
                 seconds_gt duration (2 * 60 * 60) = (seconds (2 * 60 * 60) <? d)).
  { intros d ->. apply seconds_gt_timedelta.
    change (2 * 60 * 60) with 7200. change (2 ^ 14) with 16384. lia. }
  destruct (seconds_gt duration (2 * 60 * 60)) eqn:E.
  - split; [split; reflexivity || discriminate|].
    split; [split; discriminate|].
    intros d Hdur'. pose proof (Hd d Hdur') as E'. symmetry in E'.
    apply Z.ltb_lt in E'.
    change (seconds (2 * 60 * 60 + 1)) with 7201000000.
    change (seconds (2 * 60 * 60)) with 7200000000 in *.
    repeat split; intros; try reflexivity; try discriminate; lia.
  - split; [split; discriminate|].
    split; [split; reflexivity || discriminate|].
    intros d Hdur'. pose proof (Hd d Hdur') as E'. symmetry in E'.
    apply Z.ltb_ge in E'.
    change (seconds (2 * 60 * 60 + 1)) with 7201000000.
    change (seconds (2 * 60 * 60)) with 7200000000 in *.
    repeat split; intros; try reflexivity; try discriminate; lia.
Qed.

Lemma status_two_hours_witness :
  (exists j,
     process_job_data no_fallback no_pandas 1 (report_job "2024-03-20T02:00:00")
     = Ok j
     /\ Job.status j = "completed")
  /\ exists j,
       process_job_data no_fallback no_pandas 1 (report_job "2024-03-20T02:00:01")
       = Ok j
       /\ Job.status j = "delayed".
Proof.
  split.
  - destruct (status_two_hours no_fallback no_pandas 1
                (report_job "2024-03-20T02:00:00")
                (Py (mk_datetime 2024 3 20 0 0 0 0))
                (Py (mk_datetime 2024 3 20 2 0 0 0))
                (Timedelta 7200000000) eq_refl eq_refl eq_refl)
      as (j & Hj & _ & _ & Hd).
    exists j. split; [exact Hj|].
    exact (proj1 (proj2 (proj2 (Hd 7200000000 eq_refl))) eq_refl).
  - destruct (status_two_hours no_fallback no_pandas 1
                (report_job "2024-03-20T02:00:01")
                (Py (mk_datetime 2024 3 20 0 0 0 0))
                (Py (mk_datetime 2024 3 20 2 0 1 0))
                (Timedelta 7201000000) eq_refl eq_refl eq_refl)
      as (j & Hj & _ & _ & Hd).
    exists j. split; [exact Hj|].
    exact (proj2 (proj2 (proj2 (Hd 7201000000 eq_refl))) eq_refl).
Defined.

(** C4. For every row whose startTime and endTime cells are missing,
    empty or white space only, the job built has status "failed" and no
    duration. *)
Theorem blank_times_failed
  (pd_to_datetime : nat -> bool -> string -> result Pd.scalar)
  (pd_total_seconds : stamp -> stamp -> result PyFloat.float)
  (timestamp_str : datetime -> string) (clock : nat -> datetime)
  (index : nat) (r : row) (name start stop dep desc prio : cell) (st : state) :
  cells r name start stop dep desc prio ->
  blank start -> blank stop ->
  exists j st',
    row_to_job pd_to_datetime pd_total_seconds timestamp_str clock index r st
    = (Ok j, st')
    /\ Job.status j = "failed" /\ Job.duration j = None
    /\ Job.startTimeParsed j = None /\ Job.endTimeParsed j = None.
Proof.
  intros H Hs He. rewrite (row_to_job_found _ _ _ _ _ _ _ _ _ _ _ _ _ H).
  erewrite (process_job_data_parsed _ _ _ _ None None "failed" None);
    [ do 2 eexists; split; [reflexivity|]; simpl; repeat split; reflexivity
    | simpl; rewrite blank_text by assumption; reflexivity ..
    | reflexivity | reflexivity ].
Qed.

Lemma blank_times_failed_witness :
  exists j st',
    row_to_job no_fallback no_pandas no_stamp second_clock 0 blank_row
      empty_state
    = (Ok j, st')
    /\ Job.status j = "failed" /\ Job.duration j = None
    /\ Job.startTimeParsed j = None /\ Job.endTimeParsed j = None.
Proof.
  refine (blank_times_failed no_fallback no_pandas no_stamp second_clock 0
            blank_row (Val "X") (Val "  ") NaN NaN NaN NaN empty_state _ _ _).
  - repeat split; reflexivity.
  - reflexivity.
  - exact I.
Defined.

(** C5 (as amended). For every row whose priority cell is missing
    ([NaN] or [NaT], which is how pandas reads an absent or empty cell)
    the job built has priority "normal"; a priority cell holding a
    string is trimmed and passed through, so one made of white space
    only gives the empty priority. *)
Theorem priority_default
  (pd_to_datetime : nat -> bool -> string -> result Pd.scalar)
  (pd_total_seconds : stamp -> stamp -> result PyFloat.float)
  (timestamp_str : datetime -> string) (clock : nat -> datetime)
  (index : nat) (r : row) (name start stop dep desc prio : cell) (st : state) :
  cells r name start stop dep desc prio ->
  exists j st',
    row_to_job pd_to_datetime pd_total_seconds timestamp_str clock index r st
    = (Ok j, st')
    /\ (notna prio = false -> Job.priority j = "normal")
    /\ (forall s, prio = Val s -> Job.priority j = PyStr.strip s)
    /\ (forall s, prio = Val s -> PyStr.strip s = "" -> Job.priority j = "").
Proof.
  intros H. rewrite (row_to_job_found _ _ _ _ _ _ _ _ _ _ _ _ _ H).
  destruct (process_job_data_total pd_to_datetime pd_total_seconds
              (S (ticks st))
              (Job.mk_raw
                 (str name ++ "_" ++ PyStr.of_nat index ++ "_"
                  ++ timestamp_str (clock (ticks st)))
                 (cell_text name "") (cell_text start "") (cell_text stop "")
                 (cell_text dep "") (cell_text desc "")
                 (cell_text prio "normal"))) as [j Hj].
  pose proof (process_job_data_keeps _ _ _ _ _ Hj) as Hp. simpl in Hp.
  exists j. eexists. split; [rewrite Hj; reflexivity|].
  rewrite Hp. unfold cell_text.
  split; [intros ->; reflexivity|].
  split; intros s -> ; [reflexivity|]. intros Hs. exact Hs.
Qed.

Lemma priority_default_witness :
  exists j st',
    row_to_job no_fallback no_pandas no_stamp second_clock 0 blank_row
      empty_state
    = (Ok j, st')
    /\ (notna NaN = false -> Job.priority j = "normal")
    /\ (forall s, NaN = Val s -> Job.priority j = PyStr.strip s)
    /\ (forall s, NaN = Val s -> PyStr.strip s = "" -> Job.priority j = "").
Proof.
  refine (priority_default no_fallback no_pandas no_stamp second_clock 0
            blank_row (Val "X") (Val "  ") NaN NaN NaN NaN empty_state _).
  repeat split; reflexivity.
Defined.

(** C5 as the specification states it fails: a priority cell of white
    space only gives the priority "", not "normal". *)
Lemma priority_spaces_not_normal :
  blank (Val "   ")
  /\ spaces_priority_row !! "priority" = Some (Val "   ")
  /\ ~ exists j st',
        row_to_job no_fallback no_pandas no_stamp second_clock 0
          spaces_priority_row empty_state = (Ok j, st')
        /\ Job.priority j = "normal".
Proof.
  split; [reflexivity|]. split; [reflexivity|].
  intros (j & st' & H & Hp).
  vm_compute in H. inversion H; subst. discriminate Hp.
Qed.

(** C6. [parse_datetime] returns for every string and every fallback
    parser: it never raises. It returns [None] when the string is empty
    or white space only, and when each of the five formats, tried in
    order, and then the fallback parser raise. *)
Theorem parse_datetime_never_raises
  (pd_to_datetime : string -> result Pd.scalar) (datetime_str : string) :
  (exists v, parse_datetime pd_to_datetime datetime_str = Ok v)
  /\ (PyStr.strip datetime_str = "" ->
      parse_datetime pd_to_datetime datetime_str = Ok None)
  /\ (Forall (fun fmt => exists e,
                Strptime.strptime (PyStr.strip datetime_str) fmt = Raise e)
        formats ->
      (exists e, pd_to_datetime (PyStr.strip datetime_str) = Raise e) ->
      parse_datetime pd_to_datetime datetime_str = Ok None).
Proof.
  split; [apply parse_datetime_total|].
  split; [apply parse_datetime_blank|].
  intros Hall Hpd. unfold parse_datetime.
  destruct (negb (PyStr.truthy datetime_str)
            || (PyStr.strip datetime_str =? "")%string); [reflexivity|].
  destruct (try_formats_all_fail pd_to_datetime datetime_str formats Hall Hpd)
    as [e He].
  rewrite He. reflexivity.
Qed.

Lemma parse_datetime_never_raises_witness :
  parse_datetime (no_fallback 0 false) "  " = Ok None
  /\ parse_datetime (no_fallback 0 false) "next tuesday" = Ok None.
Proof.
  split.
  - refine (proj1 (proj2 (parse_datetime_never_raises (no_fallback 0 false) "  ")) _).
    reflexivity.
  - refine (proj2 (proj2 (parse_datetime_never_raises (no_fallback 0 false)
                            "next tuesday")) _ _).
    + repeat constructor; exists ValueError; reflexivity.
    + exists ValueError. reflexivity.
Defined.

(** C10. For every row whose two timestamps parse with the end
    strictly before the start, the job built has status "completed" and
    duration "Invalid". *)
Theorem end_before_start_completed_invalid
  (pd_to_datetime : nat -> bool -> string -> result Pd.scalar)
  (pd_total_seconds : stamp -> stamp -> result PyFloat.float)
  (moment : nat) (job : Job.raw) (start_time end_time : stamp)
  (duration : span) :
  parse_datetime (pd_to_datetime moment false) (Job.raw_startTime job)
  = Ok (Some start_time) ->
  parse_datetime (pd_to_datetime moment true) (Job.raw_endTime job)
  = Ok (Some end_time) ->
  sub pd_total_seconds end_time start_time = Ok duration ->
  seconds_lt duration 0 = true ->
  exists j,
    process_job_data pd_to_datetime pd_total_seconds moment job = Ok j
    /\ Job.status j = "completed" /\ Job.duration j = Some "Invalid"
    /\ Job.startTimeParsed j = Some start_time
    /\ Job.endTimeParsed j = Some end_time.
Proof.
  intros Hs He Hsub Hd.
  erewrite (process_job_data_parsed _ _ _ _ _ _ "completed" (Some "Invalid"));
    [ eexists; split; [reflexivity|]; simpl; repeat split; reflexivity
    | eassumption | eassumption | | ].
  - rewrite (determine_status_sub _ _ _ _ Hsub).
    assert (Hgt : seconds_gt duration (2 * 60 * 60) = false).
    { apply lt_zero_not_gt; [lia|exact Hd]. }
    rewrite Hgt. reflexivity.
  - exact (calculate_duration_negative _ _ _ _ Hsub Hd).
Qed.

Lemma end_before_start_completed_invalid_witness :
  exists j,
    process_job_data no_fallback no_pandas 1 backwards_job = Ok j
    /\ Job.status j = "completed" /\ Job.duration j = Some "Invalid"
    /\ Job.startTimeParsed j = Some (Py (mk_datetime 2024 3 20 1 0 0 0))
    /\ Job.endTimeParsed j = Some (Py (mk_datetime 2024 3 20 0 0 0 0)).
Proof.
  refine (end_before_start_completed_invalid no_fallback no_pandas 1
            backwards_job
            (Py (mk_datetime 2024 3 20 1 0 0 0))
            (Py (mk_datetime 2024 3 20 0 0 0 0))
            (Timedelta (-3600000000)) _ _ _ _); reflexivity.
Defined.

(** *** Reload *)

Section Store.

Variable pd_to_datetime : nat -> bool -> string -> result Pd.scalar.
Variable pd_total_seconds : stamp -> stamp -> result PyFloat.float.
Variable timestamp_str : datetime -> string.
Variable clock : nat -> datetime.

Local Abbreviation build :=
  (row_to_job pd_to_datetime pd_total_seconds timestamp_str clock).
Local Abbreviation rows :=
  (iterrows pd_to_datetime pd_total_seconds timestamp_str clock).
Local Abbreviation load :=
  (load_jobs_from_excel pd_to_datetime pd_total_seconds timestamp_str clock).

(** Building a job reads the clock at most once and leaves the two
    globals alone. *)
Lemma row_to_job_state (index : nat) (r : row) (st st' : state)
  (res : result Job.t) :
  build index r st = (res, st') ->
  jobs_data st' = jobs_data st /\ last_updated st' = last_updated st
  /\ (ticks st <= ticks st')%nat.
Proof.
  unfold row_to_job. run_py.
  destruct (getitem r "jobName"); simpl;
    [|intros [= <- <-]; repeat split; lia].
  repeat (match goal with
          | |- context [field ?r ?c ?d] => destruct (field r c d); simpl
          end;
          [|intros [= <- <-]; simpl; repeat split; lia]).
  intros [= <- <-]. simpl. repeat split; lia.
Qed.

Lemma iterrows_state (df : list row) :
  forall (index : nat) (jobs : list Job.t) (st st' : state)
         (res : result (list Job.t)),
    rows df index jobs st = (res, st') ->
    jobs_data st' = jobs_data st /\ last_updated st' = last_updated st
    /\ (ticks st <= ticks st')%nat.
Proof.
  induction df as [|r df IH]; intros index jobs st st' res; simpl.
  - intros [= <- <-]. repeat split; lia.
  - unfold mbind, py_bind.
    destruct (build index r st) as [[job|e] st1] eqn:Hb;
      apply row_to_job_state in Hb as (H1 & H2 & H3).
    + intros H. apply IH in H as (H4 & H5 & H6).
      repeat split; try congruence; lia.
    + intros [= <- <-]. repeat split; try congruence; lia.
Qed.

(** The reload when the sheet is missing or cannot be read. *)
Lemma load_unavailable (src : source) (st : state) :
  path_exists src = false \/ (exists e, read_excel src = Raise e) ->
  load src st
  = (Ok tt, mk_state [] (Some (clock (ticks st))) (S (ticks st))).
Proof.
  unfold load_jobs_from_excel, py_try.
  destruct (path_exists src); simpl.
  - intros [H|[e He]]; [discriminate|]. rewrite He. run_py. reflexivity.
  - intros _. run_py. reflexivity.
Qed.

(** The reload returns, and leaves in [last_updated] its last reading
    of the clock. *)
Lemma load_total (src : source) (st : state) :
  exists st' k,
    load src st = (Ok tt, st')
    /\ (ticks st <= k)%nat
    /\ last_updated st' = Some (clock k) /\ ticks st' = S k
    /\ (jobs_data st' = []
        \/ exists df st1,
             read_excel src = Ok df
             /\ rows df 0%nat [] st = (Ok (jobs_data st'), st1)).
Proof.
  unfold load_jobs_from_excel, py_try.
  destruct (path_exists src); simpl.
  - destruct (read_excel src) as [df|e]; run_py.
    + destruct (rows df 0%nat [] st) as [[jobs|e] st1] eqn:Hr;
        pose proof (iterrows_state _ _ _ _ _ _ Hr) as (_ & _ & Ht); simpl;
        do 2 eexists; (split; [reflexivity|]); simpl;
        (split; [exact Ht|]); (split; [reflexivity|]);
        (split; [reflexivity|]).
      * right. exists df, st1. split; [reflexivity|exact Hr].
      * left. reflexivity.
    + do 2 eexists. split; [reflexivity|]. simpl.
      split; [apply Nat.le_refl|]. repeat split. left. reflexivity.
  - run_py. do 2 eexists. split; [reflexivity|]. simpl.
    split; [apply Nat.le_refl|]. repeat split. left. reflexivity.
Qed.

End Store.

(** C7. When the spreadsheet is missing or unreadable, the reload
    empties the job collection and still sets [last_updated] to the
    time read from the clock; and for every source the reload returns
    without an exception, [last_updated] being the time of its last
    reading of the clock and the collection being empty unless every
    row of the sheet gave a job. *)
Theorem reload_never_fails
  (pd_to_datetime : nat -> bool -> string -> result Pd.scalar)
  (pd_total_seconds : stamp -> stamp -> result PyFloat.float)
  (timestamp_str : datetime -> string) (clock : nat -> datetime)
  (src : source) (st : state) :
  (path_exists src = false \/ (exists e, read_excel src = Raise e) ->
   load_jobs_from_excel pd_to_datetime pd_total_seconds timestamp_str clock
     src st
   = (Ok tt, mk_state [] (Some (clock (ticks st))) (S (ticks st))))
  /\ exists st' k,
       load_jobs_from_excel pd_to_datetime pd_total_seconds timestamp_str
         clock src st
       = (Ok tt, st')
       /\ (ticks st <= k)%nat
       /\ last_updated st' = Some (clock k) /\ ticks st' = S k
       /\ (jobs_data st' = []
           \/ exists df st1,
                read_excel src = Ok df
                /\ iterrows pd_to_datetime pd_total_seconds timestamp_str
                     clock df 0%nat [] st
                   = (Ok (jobs_data st'), st1)).
Proof.
  split; [apply load_unavailable | apply load_total].
Qed.

Lemma reload_never_fails_witness :
  load_jobs_from_excel no_fallback no_pandas no_stamp second_clock
    (mk_source true (Raise OtherException))
    (mk_state [] None 7)
  = (Ok tt, mk_state [] (Some (mk_datetime 2024 3 21 12 0 7 0)) 8).
Proof.
  refine (proj1 (reload_never_fails no_fallback no_pandas no_stamp second_clock
                   (mk_source true (Raise OtherException))
                   (mk_state [] None 7)) _).
  right. exists OtherException. reflexivity.
Defined.

(** *** Listing *)

Lemma filtered_jobs_page (a : jobs_args) (page : option string)
  (jobs_data : list Job.t) :
  filtered_jobs (with_page a page) jobs_data = filtered_jobs a jobs_data.
Proof. reflexivity. Qed.

Lemma slice_past_end {A} (l : list A) (start stop : Z) :
  Z.of_nat (length l) <= start -> slice l start stop = [].
Proof.
  intros H. unfold slice, slice_index.
  destruct (Z.ltb_spec start 0) as [Hneg|_]; [lia|].
  rewrite (Z.min_r start) by lia. rewrite Nat2Z.id.
  rewrite drop_all. apply take_nil.
Qed.

Lemma get_jobs_parsed (a : jobs_args) (st : state) (p n : Z) :
  int_arg (arg_page a) 1 = Ok p ->
  int_arg (arg_pageSize a) 50 = Ok n ->
  get_jobs a st
  = Http200
      (mk_page
         (slice (filtered_jobs a (jobs_data st)) ((p - 1) * n) ((p - 1) * n + n))
         (length (filtered_jobs a (jobs_data st)))
         (last_updated st) "excel").
Proof.
  intros Hp Hn. unfold get_jobs. rewrite Hp, Hn. reflexivity.
Qed.

(** C8. For every collection, filters and page size, the listing
    returns a page whose [totalCount] is the number of jobs left by the
    filters, whatever page is asked for (the same for page 1 and page
    2); a page that starts at or after the end of the filtered jobs is
    empty, and is not an error. *)
Theorem total_count_independent_of_page
  (a : jobs_args) (st : state) (p n : Z) :
  int_arg (arg_page a) 1 = Ok p ->
  int_arg (arg_pageSize a) 50 = Ok n ->
  exists b,
    get_jobs a st = Http200 b
    /\ totalCount b = length (filtered_jobs a (jobs_data st))
    /\ page_jobs b
       = slice (filtered_jobs a (jobs_data st)) ((p - 1) * n) ((p - 1) * n + n)
    /\ (forall page p',
          int_arg page 1 = Ok p' ->
          exists b', get_jobs (with_page a page) st = Http200 b'
                     /\ totalCount b' = totalCount b)
    /\ (exists b1 b2,
          get_jobs (with_page a (Some "1")) st = Http200 b1
          /\ get_jobs (with_page a (Some "2")) st = Http200 b2
          /\ totalCount b1 = totalCount b2)
    /\ (Z.of_nat (totalCount b) <= (p - 1) * n -> page_jobs b = []).
Proof.
  intros Hp Hn. eexists. split; [apply (get_jobs_parsed a st p n Hp Hn)|].
  simpl. split; [reflexivity|]. split; [reflexivity|]. split; [|split].
  - intros page p' Hp'. eexists.
    split; [apply (get_jobs_parsed (with_page a page) st p' n Hp' Hn)|].
    reflexivity.
  - do 2 eexists.
    split; [apply (get_jobs_parsed (with_page a (Some "1")) st 1 n eq_refl Hn)|].
    split; [apply (get_jobs_parsed (with_page a (Some "2")) st 2 n eq_refl Hn)|].
    reflexivity.
  - apply slice_past_end.
Qed.

Lemma total_count_independent_of_page_witness :
  exists b,
    get_jobs page_3_by_2 (mk_state [daily_etl_job] None 1) = Http200 b
    /\ totalCount b = 1%nat /\ page_jobs b = [].
Proof.
  destruct (total_count_independent_of_page page_3_by_2
              (mk_state [daily_etl_job] None 1) 3 2 eq_refl eq_refl)
    as (b & H1 & H2 & _ & _ & _ & H6).
  exists b. split; [exact H1|]. split; [exact H2|].
  apply H6. rewrite H2. simpl. lia.
Defined.

(** *** Alerts *)

Lemma append_if_emit (jobs : list Job.t) (alert : list Job.t -> Alert.t)
  (alerts : list Alert.t) :
  append_if jobs alert alerts = (alerts ++ emit jobs alert)%list.
Proof. destruct jobs; simpl; [rewrite app_nil_r|]; reflexivity. Qed.


Lemma timed_running_inv (job : Job.t) :
  timed_running job = true ->
  Job.status job = "running" /\ exists start, Job.startTimeParsed job = Some start.
Proof.
  unfold timed_running. intros H. apply andb_prop in H as [H1 H2].
  split; [apply String.eqb_eq; exact H1|].
  destruct (Job.startTimeParsed job); [eauto|discriminate].
Qed.


Section Alerts.

Variable pd_total_seconds : stamp -> stamp -> result PyFloat.float.
Variable clock : nat -> datetime.

Local Abbreviation minus := (sub pd_total_seconds).
Local Abbreviation loop := (long_running pd_total_seconds clock).

Lemma long_running_skip (job : Job.t) (jobs acc : list Job.t) (st : state) :
  timed_running job = false ->
  loop (job :: jobs) acc st = loop jobs acc st.
Proof.
  unfold timed_running. cbn [long_running].
  destruct (Job.status job =? "running")%string; [|reflexivity].
  destruct (Job.startTimeParsed job); [discriminate|reflexivity].
Qed.

Lemma long_running_test (job : Job.t) (jobs acc : list Job.t) (st : state)
  (start : stamp) :
  Job.status job = "running" ->
  Job.startTimeParsed job = Some start ->
  loop (job :: jobs) acc st
  = match minus (Py (clock (ticks st))) start with
    | Ok d =>
        loop jobs
          (if seconds_gt d (3 * 60 * 60) then (acc ++ [job])%list else acc)
          (mk_state (jobs_data st) (last_updated st) (S (ticks st)))
    | Raise e =>
        (Raise e, mk_state (jobs_data st) (last_updated st) (S (ticks st)))
    end.
Proof.
  intros Hr Hs. cbn [long_running]. rewrite Hr, Hs.
  rewrite String.eqb_refl.
  unfold mbind, py_bind, datetime_now, lift.
  destruct (minus (Py (clock (ticks st))) start) as [d|e]; [|reflexivity].
  destruct (seconds_gt d (3 * 60 * 60)); reflexivity.
Qed.

(** The loop of the long-running jobs: what it adds when it ends, the
    subtraction that stopped it when it does not, and what it does to
    the state. *)
Lemma long_running_loop (jobs : list Job.t) :
  forall (acc : list Job.t) (st : state),
  exists outcome st',
    loop jobs acc st = (outcome, st')
    /\ jobs_data st' = jobs_data st /\ last_updated st' = last_updated st
    /\ (ticks st <= ticks st'
        <= ticks st + length (List.filter timed_running jobs))%nat
    /\ match outcome with
       | Ok l =>
           exists extra,
             l = (acc ++ extra)%list
             /\ ticks st' = (ticks st + length (List.filter timed_running jobs))%nat
             /\ extra `sublist_of` with_status "running" jobs
             /\ (forall j, In j extra ->
                   In j jobs /\ Job.status j = "running"
                   /\ exists s k d,
                        Job.startTimeParsed j = Some s
                        /\ (ticks st <= k < ticks st')%nat
                        /\ minus (Py (clock k)) s = Ok d
                        /\ seconds_gt d (3 * 60 * 60) = true)
             /\ (forall j s,
                   In j jobs -> Job.status j = "running" ->
                   Job.startTimeParsed j = Some s ->
                   (forall k d, (ticks st <= k)%nat ->
                                minus (Py (clock k)) s = Ok d ->
                                seconds_gt d (3 * 60 * 60) = true) ->
                   In j extra)
       | Raise e =>
           exists j s k,
             In j jobs /\ Job.status j = "running"
             /\ Job.startTimeParsed j = Some s
             /\ (ticks st <= k < ticks st')%nat
             /\ minus (Py (clock k)) s = Raise e
       end.
Proof.
  induction jobs as [|job jobs IH]; intros acc st.
  - exists (Ok acc), st. simpl.
    split; [reflexivity|]. split; [reflexivity|]. split; [reflexivity|].
    split; [lia|]. exists []. rewrite app_nil_r.
    split; [reflexivity|]. split; [lia|]. split; [constructor|].
    split; [intros j []|intros j s []].
  - cbn [List.filter]. destruct (timed_running job) eqn:Ht.
    + destruct (timed_running_inv job Ht) as (Hrun & start & Hstart).
      rewrite (long_running_test job jobs acc st start Hrun Hstart).
      set (st1 := mk_state (jobs_data st) (last_updated st) (S (ticks st))).
      cbn [length].
      assert (Hw : with_status "running" (job :: jobs)
                   = job :: with_status "running" jobs).
      { unfold with_status. simpl. rewrite Hrun. reflexivity. }
      destruct (minus (Py (clock (ticks st))) start) as [d|e] eqn:Hd.
      * destruct (seconds_gt d (3 * 60 * 60)) eqn:Hlong.
        -- destruct (IH (acc ++ [job])%list st1)
             as ([l|e] & st' & Hl & Hj & Hu & Ht' & Hout).
           ++ destruct Hout as (extra & -> & Hticks & Hsub & Hs & Hc).
              exists (Ok ((acc ++ [job]) ++ extra)%list), st'.
              split; [exact Hl|]. split; [exact Hj|]. split; [exact Hu|].
              simpl in Ht', Hticks. split; [lia|].
              exists (job :: extra). rewrite <- app_assoc.
              split; [reflexivity|]. split; [lia|].
              split; [rewrite Hw; apply sublist_skip; exact Hsub|]. split.
              ** intros j [<-|Hin].
                 --- split; [left; reflexivity|]. split; [exact Hrun|].
                     exists start, (ticks st), d.
                     repeat split; try assumption; lia.
                 --- destruct (Hs j Hin)
                       as (H1 & H2 & s & k & d' & H3 & H4 & H5 & H6).
                     split; [right; exact H1|]. split; [exact H2|].
                     exists s, k, d'. simpl in H4.
                     repeat split; try assumption; lia.
              ** intros j s [<-|Hin] Hr Hst Hall; [left; reflexivity|].
                 right. apply (Hc j s Hin Hr Hst). intros k d' Hk.
                 apply Hall. simpl in Hk. lia.
           ++ destruct Hout as (j & s & k & Hin & Hr & Hst & Hk & Hraise).
              exists (Raise e), st'.
              split; [exact Hl|]. split; [exact Hj|]. split; [exact Hu|].
              simpl in Ht'. split; [lia|].
              exists j, s, k. simpl in Hk.
              repeat split; try assumption; try lia. right. exact Hin.
        -- destruct (IH acc st1) as ([l|e] & st' & Hl & Hj & Hu & Ht' & Hout).
           ++ destruct Hout as (extra & -> & Hticks & Hsub & Hs & Hc).
              exists (Ok (acc ++ extra)%list), st'.
              split; [exact Hl|]. split; [exact Hj|]. split; [exact Hu|].
              simpl in Ht', Hticks. split; [lia|].
              exists extra.
              split; [reflexivity|]. split; [lia|].
              split; [rewrite Hw; apply sublist_cons; exact Hsub|]. split.
              ** intros j Hin.
                 destruct (Hs j Hin)
                   as (H1 & H2 & s & k & d' & H3 & H4 & H5 & H6).
                 split; [right; exact H1|]. split; [exact H2|].
                 exists s, k, d'. simpl in H4.
                 repeat split; try assumption; lia.
              ** intros j s [<-|Hin] Hr Hst Hall.
                 --- exfalso. rewrite Hstart in Hst. injection Hst as <-.
                     pose proof (Hall (ticks st) d (Nat.le_refl _) Hd) as Hgt.
                     congruence.
                 --- apply (Hc j s Hin Hr Hst). intros k d' Hk.
                     apply Hall. simpl in Hk. lia.
           ++ destruct Hout as (j & s & k & Hin & Hr & Hst & Hk & Hraise).
              exists (Raise e), st'.
              split; [exact Hl|]. split; [exact Hj|]. split; [exact Hu|].
              simpl in Ht'. split; [lia|].
              exists j, s, k. simpl in Hk.
              repeat split; try assumption; try lia. right. exact Hin.
      * exists (Raise e), st1.
        split; [reflexivity|]. split; [reflexivity|]. split; [reflexivity|].
        simpl. split; [lia|].
        exists job, start, (ticks st).
        repeat split; try assumption; try lia. left. reflexivity.
    + rewrite (long_running_skip job jobs acc st Ht).
      destruct (IH acc st) as ([l|e] & st' & Hl & Hj & Hu & Ht' & Hout).
      * destruct Hout as (extra & -> & Hticks & Hsub & Hs & Hc).
        exists (Ok (acc ++ extra)%list), st'.
        split; [exact Hl|]. split; [exact Hj|]. split; [exact Hu|].
        split; [exact Ht'|].
        exists extra. split; [reflexivity|]. split; [exact Hticks|]. split.
        { unfold with_status. simpl.
          destruct (Job.status job =? "running")%string;
            [apply sublist_cons|]; exact Hsub. }
        split.
        -- intros j Hin.
           destruct (Hs j Hin) as (H1 & H2 & H3). split; [right; exact H1|].
           split; assumption.
        -- intros j s [<-|Hin] Hr Hst Hall.
           ++ exfalso. unfold timed_running in Ht. rewrite Hr, Hst in Ht.
              discriminate Ht.
           ++ apply (Hc j s Hin Hr Hst Hall).
      * destruct Hout as (j & s & k & Hin & Hr & Hst & Hk & Hraise).
        exists (Raise e), st'.
        split; [exact Hl|]. split; [exact Hj|]. split; [exact Hu|].
        split; [exact Ht'|].
        exists j, s, k. repeat split; try assumption; try lia.
        right. exact Hin.
Qed.


(** [get_alerts] after its loop. *)
Lemma get_alerts_outcome (st : state) :
  get_alerts pd_total_seconds clock st
  = match loop (jobs_data st) [] st with
    | (Ok long_running_jobs, st1) =>
        (Ok (Http200
               (mk_alerts
                  (emit (with_status "delayed" (jobs_data st)) delayed_alert
                   ++ emit (with_status "failed" (jobs_data st)) failed_alert
                   ++ emit long_running_jobs long_running_alert)%list
                  (clock (ticks st1)))),
         mk_state (jobs_data st1) (last_updated st1) (S (ticks st1)))
    | (Raise e, st1) => (Ok (Http500 "Internal server error"), st1)
    end.
Proof.
  unfold get_alerts, py_try. run_py.
  destruct (loop (jobs_data st) [] st) as [[long|e] st1]; simpl;
    [|reflexivity].
  rewrite !append_if_emit, <- app_assoc. reflexivity.
Qed.

End Alerts.



(** ** Further properties of the parser and of the derivation *)

Lemma rstrip_idem (s : string) : PyStr.rstrip (PyStr.rstrip s) = PyStr.rstrip s.
Proof.
  induction s as [|c r IH]; simpl; [reflexivity|].
  destruct (PyStr.rstrip r) as [|c' r'] eqn:E.
  - destruct (PyStr.isspace c) eqn:Ec; simpl; [reflexivity|].
    rewrite Ec. reflexivity.
  - simpl in *. rewrite IH. reflexivity.
Qed.

(** Trimming on the right keeps a first character that is no space. *)
Lemma lstrip_rstrip (s : string) :
  PyStr.lstrip s = s -> PyStr.lstrip (PyStr.rstrip s) = PyStr.rstrip s.
Proof.
  destruct s as [|c r]; simpl; [reflexivity|].
  destruct (PyStr.isspace c) eqn:Ec.
  - intros H. exfalso.
    assert (Hl : forall u, (String.length (PyStr.lstrip u) <= String.length u)%nat).
    { induction u as [|a u IHu]; simpl; [lia|].
      destruct (PyStr.isspace a); simpl; lia. }
    pose proof (Hl r) as Hr. rewrite H in Hr. simpl in Hr. lia.
  - intros _. destruct (PyStr.rstrip r); simpl; rewrite Ec; reflexivity.
Qed.

Lemma lstrip_idem (s : string) : PyStr.lstrip (PyStr.lstrip s) = PyStr.lstrip s.
Proof.
  induction s as [|c r IH]; simpl; [reflexivity|].
  destruct (PyStr.isspace c) eqn:E; [exact IH|].
  simpl. rewrite E. reflexivity.
Qed.

Lemma strip_idem (s : string) : PyStr.strip (PyStr.strip s) = PyStr.strip s.
Proof.
  unfold PyStr.strip.
  rewrite (lstrip_rstrip (PyStr.lstrip s) (lstrip_idem s)).
  apply rstrip_idem.
Qed.

Lemma strip_truthy (s : string) :
  PyStr.truthy (PyStr.strip s) = negb (PyStr.strip s =? "")%string.
Proof. destruct (PyStr.strip s); reflexivity. Qed.

Lemma try_formats_strip (pd : string -> result Pd.scalar) (fmts : list string)
  (s : string) :
  try_formats pd fmts (PyStr.strip s) = try_formats pd fmts s.
Proof.
  induction fmts as [|fmt fmts IH]; simpl; rewrite strip_idem; [reflexivity|].
  rewrite IH. reflexivity.
Qed.

(** X2. Surrounding white space does not matter to [parse_datetime]. *)
Theorem parse_datetime_strip (pd : string -> result Pd.scalar) (s : string) :
  parse_datetime pd (PyStr.strip s) = parse_datetime pd s.
Proof.
  destruct (String.eqb_spec (PyStr.strip s) "") as [E|E].
  - rewrite (parse_datetime_blank pd s E), E. reflexivity.
  - unfold parse_datetime.
    rewrite strip_idem, try_formats_strip, strip_truthy.
    assert (Hs : PyStr.truthy s = true).
    { destruct s; [exfalso; apply E; reflexivity | reflexivity]. }
    rewrite Hs. destruct (String.eqb_spec (PyStr.strip s) ""); [contradiction|].
    reflexivity.
Qed.

(** X1. A timestamp returned by [parse_datetime] either comes from one
    of the five formats, and is then a valid date and time of day with
    no microseconds, or is what the fallback parser returned. *)
Theorem parsed_timestamp_valid (pd : string -> result Pd.scalar)
  (s : string) (t : stamp) :
  parse_datetime pd s = Ok (Some t) ->
  (exists t',
     t = Py t' /\ valid_datetime t' /\ PyTime.microsecond t' = 0
     /\ exists fmt, In fmt formats
                    /\ Strptime.strptime (PyStr.strip s) fmt = Ok t')
  \/ (exists x, t = Pandas x /\ pd (PyStr.strip s) = Ok x).
Proof.
  intros H. destruct t as [t'|x].
  - left. exists t'. split; [reflexivity|].
    exact (parse_datetime_py pd s t' H).
  - right. exists x. split; [reflexivity|].
    unfold parse_datetime in H.
    destruct (negb (PyStr.truthy s) || (PyStr.strip s =? "")%string);
      [discriminate|].
    destruct (try_formats pd formats s) as [t'|e] eqn:E; simpl in H;
      [|discriminate].
    injection H as ->.
    destruct (try_formats_origin _ _ _ _ E)
      as [(t' & fmt & Ht & _)|(x' & [= <-] & Hx)]; [discriminate Ht|exact Hx].
Qed.

Lemma parsed_timestamp_valid_witness :
  (exists t',
     Py (mk_datetime 2024 2 29 0 0 0 0) = Py t'
     /\ valid_datetime t' /\ PyTime.microsecond t' = 0
     /\ exists fmt, In fmt formats
          /\ Strptime.strptime (PyStr.strip " 2/29/2024 ") fmt = Ok t')
  \/ (exists x, Py (mk_datetime 2024 2 29 0 0 0 0) = Pandas x
                /\ no_fallback 0 false (PyStr.strip " 2/29/2024 ") = Ok x).
Proof.
  refine (parsed_timestamp_valid (no_fallback 0 false) " 2/29/2024 "
            (Py (mk_datetime 2024 2 29 0 0 0 0)) _).
  reflexivity.
Defined.

Lemma strptime_empty (fmt : string) :
  In fmt formats -> Strptime.strptime "" fmt = Raise ValueError.
Proof.
  unfold formats. simpl.
  intros [<-|[<-|[<-|[<-|[<-|[]]]]]]; reflexivity.
Qed.

Lemma try_formats_first (pd : string -> result Pd.scalar) (s : string)
  (pre post : list string) (fmt : string) (t : datetime) :
  Forall (fun f => exists e, Strptime.strptime (PyStr.strip s) f = Raise e) pre ->
  Strptime.strptime (PyStr.strip s) fmt = Ok t ->
  try_formats pd (pre ++ fmt :: post) s = Ok (Py t).
Proof.
  intros Hpre Hfmt. induction Hpre as [|f pre [e He] _ IH]; simpl.
  - rewrite Hfmt. reflexivity.
  - rewrite He, (strptime_raises _ _ _ He). exact IH.
Qed.

(** X3. The formats are tried in their order and the first that
    accepts the trimmed string gives the result; the fallback parser is
    then not consulted, whatever it would return. *)
Theorem first_format_wins (pd : string -> result Pd.scalar) (s : string)
  (pre post : list string) (fmt : string) (t : datetime) :
  formats = (pre ++ fmt :: post)%list ->
  Forall (fun f => exists e, Strptime.strptime (PyStr.strip s) f = Raise e) pre ->
  Strptime.strptime (PyStr.strip s) fmt = Ok t ->
  parse_datetime pd s = Ok (Some (Py t)).
Proof.
  intros Hf Hpre Hfmt. unfold parse_datetime.
  assert (Hin : In fmt formats) by (rewrite Hf; apply in_elt).
  assert (Hne : (PyStr.strip s =? "")%string = false).
  { destruct (String.eqb_spec (PyStr.strip s) "") as [E|_]; [|reflexivity].
    rewrite E, (strptime_empty fmt Hin) in Hfmt. discriminate. }
  assert (Hs : PyStr.truthy s = true).
  { destruct s; [|reflexivity]. discriminate Hne. }
  rewrite Hs, Hne, Hf. simpl.
  rewrite (try_formats_first pd s pre post fmt t Hpre Hfmt). reflexivity.
Qed.

Lemma first_format_wins_witness :
  parse_datetime (no_fallback 0 false) "3/7/2024 10:00:00"
  = Ok (Some (Py (mk_datetime 2024 3 7 10 0 0 0))).
Proof.
  refine (first_format_wins (no_fallback 0 false) "3/7/2024 10:00:00"
            ["%Y-%m-%dT%H:%M:%S"; "%Y-%m-%d %H:%M:%S"; "%Y-%m-%d"]
            ["%m/%d/%Y"] "%m/%d/%Y %H:%M:%S"
            (mk_datetime 2024 3 7 10 0 0 0) _ _ _).
  - reflexivity.
  - repeat constructor; exists ValueError; reflexivity.
  - reflexivity.
Defined.

Lemma determine_status_cases
  (pd_total_seconds : stamp -> stamp -> result PyFloat.float)
  (s e : option stamp) (st : string) :
  determine_status pd_total_seconds s e = Ok st ->
  (s = None /\ st = "failed")
  \/ (s <> None /\ e = None /\ st = "running")
  \/ (s <> None /\ e <> None
      /\ (st = "delayed" \/ st = "completed" \/ st = "failed")).
Proof.
  destruct s as [s|], e as [e|]; simpl.
  - destruct (sub pd_total_seconds e s) as [d|x]; simpl;
      [destruct (seconds_gt _ _)|]; intros [= <-];
      right; right; (split; [discriminate|]); (split; [discriminate|]); auto.
  - intros [= <-]. right. left. split; [discriminate|]. auto.
  - intros [= <-]. auto.
  - intros [= <-]. auto.
Qed.

Lemma calculate_duration_cases
  (pd_total_seconds : stamp -> stamp -> result PyFloat.float)
  (s e : option stamp) (d : option string) :
  calculate_duration pd_total_seconds s e = Ok d ->
  (s = None /\ d = None)
  \/ (s <> None /\ e = None /\ d = Some "Running")
  \/ (s <> None /\ e <> None /\ d <> None).
Proof.
  destruct s as [s|], e as [e|]; simpl.
  - destruct (sub pd_total_seconds e s) as [du|x]; simpl;
      [destruct (seconds_lt _ _); simpl;
         [|destruct (PyFloat.int _); simpl; [destruct (0 <? _)|]]|];
      intros [= <-]; right; right; repeat split; discriminate.
  - intros [= <-]. right. left. split; [discriminate|]. auto.
  - intros [= <-]. auto.
  - intros [= <-]. auto.
Qed.

(** X4. In every job that [process_job_data] builds, the derived
    fields agree with each other: the two parsed timestamps are what
    [parse_datetime] made, at that time, of the raw strings kept beside
    them; the status is one of the four; without a start it is "failed",
    and the duration is absent exactly then; it is "running" exactly
    when there is a start but no end, the duration being then
    "Running"; with both, it is "delayed" or "completed" by the two
    hours when they can be subtracted, and "failed", with the duration
    "Invalid", when they cannot. *)
Theorem built_job_consistent
  (pd_to_datetime : nat -> bool -> string -> result Pd.scalar)
  (pd_total_seconds : stamp -> stamp -> result PyFloat.float)
  (moment : nat) (job : Job.raw) (j : Job.t) :
  process_job_data pd_to_datetime pd_total_seconds moment job = Ok j ->
  parse_datetime (pd_to_datetime moment false) (Job.startTime j)
  = Ok (Job.startTimeParsed j)
  /\ parse_datetime (pd_to_datetime moment true) (Job.endTime j)
     = Ok (Job.endTimeParsed j)
  /\ four_statuses j
  /\ (Job.startTimeParsed j = None -> Job.status j = "failed")
  /\ (Job.duration j = None <-> Job.startTimeParsed j = None)
  /\ (Job.status j = "running"
      <-> Job.startTimeParsed j <> None /\ Job.endTimeParsed j = None)
  /\ (Job.status j = "running" -> Job.duration j = Some "Running")
  /\ (forall s e,
        Job.startTimeParsed j = Some s -> Job.endTimeParsed j = Some e ->
        match sub pd_total_seconds e s with
        | Ok d =>
            Job.status j
            = (if seconds_gt d (2 * 60 * 60) then "delayed" else "completed")
            /\ (seconds_lt d 0 = true -> Job.duration j = Some "Invalid")
        | Raise _ =>
            Job.status j = "failed" /\ Job.duration j = Some "Invalid"
        end).
Proof.
  intros H.
  destruct (process_job_data_inv _ _ _ _ _ H)
    as (s & e & st & d & Hs & He & Hst & Hd & ->). simpl.
  split; [exact Hs|]. split; [exact He|].
  split.
  { unfold four_statuses. simpl.
    destruct (determine_status_cases _ _ _ _ Hst)
      as [[_ ->]|[(_ & _ & ->)|(_ & _ & [->|[->| ->]])]]; auto. }
  split.
  { intros ->. simpl in Hst. congruence. }
  split.
  { destruct (calculate_duration_cases _ _ _ _ Hd)
      as [[-> ->]|[(Hs' & _ & ->)|(Hs' & _ & Hdn)]];
      split; intros; try reflexivity; try congruence; try contradiction. }
  split.
  { destruct (determine_status_cases _ _ _ _ Hst)
      as [[-> ->]|[(Hsn & -> & ->)|(Hsn & Hen & [->|[->| ->]])]];
      split; try discriminate; try tauto; intros [? ?]; congruence. }
  split.
  { destruct s as [s|], e as [e|]; simpl in Hst, Hd.
    - destruct (sub pd_total_seconds e s) as [du|x]; simpl in Hst;
        [destruct (seconds_gt _ _)|]; injection Hst as <-; discriminate.
    - intros _. congruence.
    - injection Hst as <-. discriminate.
    - injection Hst as <-. discriminate. }
  intros s' e' [= ->] [= ->].
  destruct (sub pd_total_seconds e' s') as [du|x] eqn:Hsub.
  - rewrite (determine_status_sub _ _ _ _ Hsub) in Hst. injection Hst as <-.
    split; [reflexivity|]. intros Hneg.
    rewrite (calculate_duration_negative _ _ _ _ Hsub Hneg) in Hd. congruence.
  - rewrite (determine_status_raise _ _ _ _ Hsub) in Hst.
    rewrite (calculate_duration_raise _ _ _ _ Hsub) in Hd.
    split; congruence.
Qed.

Lemma built_job_consistent_witness :
  Job.status daily_etl_job = "running"
  <-> Job.startTimeParsed daily_etl_job <> None
      /\ Job.endTimeParsed daily_etl_job = None.
Proof.
  refine (proj1 (proj2 (proj2 (proj2 (proj2 (proj2
            (built_job_consistent no_fallback no_pandas 1
               (Job.mk_raw "Daily_ETL_0_0.0" "Daily_ETL" "2024-03-20T00:00:00"
                  "2024-03-20T01:00:00" ""
                  "Daily data extraction and transformation" "high")
               daily_etl_job _))))))).
  reflexivity.
Defined.

(** ** Further properties of the reload *)

Lemma field_missing (r : row) (col dflt : string) :
  r !! col = None -> field r col dflt = Raise KeyError.
Proof. intros H. unfold field, getitem. rewrite H. reflexivity. Qed.

Section Reload.

Variable pd_to_datetime : nat -> bool -> string -> result Pd.scalar.
Variable pd_total_seconds : stamp -> stamp -> result PyFloat.float.
Variable timestamp_str : datetime -> string.
Variable clock : nat -> datetime.

Local Abbreviation build :=
  (row_to_job pd_to_datetime pd_total_seconds timestamp_str clock).
Local Abbreviation rows :=
  (iterrows pd_to_datetime pd_total_seconds timestamp_str clock).
Local Abbreviation load :=
  (load_jobs_from_excel pd_to_datetime pd_total_seconds timestamp_str clock).
Local Abbreviation fields := (row_fields pd_to_datetime pd_total_seconds).

(** [row_to_job] reads the clock for the id and is otherwise a
    function of the row and of the time. *)
Lemma row_to_job_fields (index : nat) (r : row) (st : state) :
  build index r st
  = match r !! "jobName" with
    | None => (Raise KeyError, st)
    | Some name =>
        (fields (S (ticks st)) r
           (str name ++ "_" ++ PyStr.of_nat index ++ "_"
            ++ timestamp_str (clock (ticks st))),
         mk_state (jobs_data st) (last_updated st) (S (ticks st)))
    end.
Proof.
  unfold row_to_job, row_fields, getitem.
  destruct (r !! "jobName") as [name|]; run_py; [|reflexivity].
  repeat match goal with
         | |- context [field ?r ?c ?d] => destruct (field r c d); simpl
         end; reflexivity.
Qed.

Lemma row_fields_incomplete (moment : nat) (r : row) (id : string) :
  ~ complete r -> exists e, fields moment r id = Raise e.
Proof.
  intros Hn. unfold row_fields.
  destruct (r !! "jobName") as [c1|] eqn:E1;
    [rewrite (field_found _ _ _ _ E1)
    |rewrite (field_missing _ _ _ E1); simpl; eauto].
  destruct (r !! "startTime") as [c2|] eqn:E2;
    [rewrite (field_found _ _ _ _ E2)
    |rewrite (field_missing _ _ _ E2); simpl; eauto].
  destruct (r !! "endTime") as [c3|] eqn:E3;
    [rewrite (field_found _ _ _ _ E3)
    |rewrite (field_missing _ _ _ E3); simpl; eauto].
  destruct (r !! "dependency") as [c4|] eqn:E4;
    [rewrite (field_found _ _ _ _ E4)
    |rewrite (field_missing _ _ _ E4); simpl; eauto].
  destruct (r !! "description") as [c5|] eqn:E5;
    [rewrite (field_found _ _ _ _ E5)
    |rewrite (field_missing _ _ _ E5); simpl; eauto].
  destruct (r !! "priority") as [c6|] eqn:E6;
    [|rewrite (field_missing _ _ _ E6); simpl; eauto].
  exfalso. apply Hn. unfold complete.
  rewrite E1, E2, E3, E4, E5, E6. repeat split; eauto.
Qed.

Lemma row_to_job_incomplete (index : nat) (r : row) (st : state) :
  ~ complete r -> exists e st', build index r st = (Raise e, st').
Proof.
  intros Hn. rewrite row_to_job_fields.
  destruct (r !! "jobName") as [name|]; [|eauto].
  destruct (row_fields_incomplete (S (ticks st)) r
              (str name ++ "_" ++ PyStr.of_nat index ++ "_"
               ++ timestamp_str (clock (ticks st))) Hn) as [e He].
  rewrite He. eauto.
Qed.

Lemma row_to_job_complete (index : nat) (r : row) (st : state) :
  complete r ->
  exists j,
    build index r st
    = (Ok j, mk_state (jobs_data st) (last_updated st) (S (ticks st)))
    /\ built_from r j.
Proof.
  intros ([c1 E1] & [c2 E2] & [c3 E3] & [c4 E4] & [c5 E5] & [c6 E6]).
  assert (Hc : cells r c1 c2 c3 c4 c5 c6) by (repeat split; assumption).
  rewrite (row_to_job_found _ _ _ _ _ _ _ _ _ _ _ _ _ Hc).
  match goal with
  | |- context [process_job_data _ _ ?m ?raw] =>
      destruct (process_job_data_total pd_to_datetime pd_total_seconds m raw)
        as [j Hj];
      destruct (process_job_data_inv _ _ _ _ _ Hj)
        as (s & e & status & d & _ & _ & _ & _ & Hjeq)
  end.
  exists j. rewrite Hj. split; [reflexivity|].
  exists c1, c2, c3, c4, c5, c6. rewrite Hjeq. simpl.
  repeat split; assumption || reflexivity.
Qed.

Lemma iterrows_complete (df : list row) :
  forall (index : nat) (acc : list Job.t) (st : state),
    Forall complete df ->
    exists jobs,
      rows df index acc st
      = (Ok (acc ++ jobs)%list,
         mk_state (jobs_data st) (last_updated st) (ticks st + length df))
      /\ Forall2 built_from df jobs.
Proof.
  induction df as [|r df IH]; intros index acc st Hall; simpl.
  - exists []. rewrite app_nil_r, Nat.add_0_r. destruct st. split; [reflexivity|].
    constructor.
  - inversion Hall as [|? ? Hr Hdf]; subst.
    destruct (row_to_job_complete index r st Hr) as (j & Hj & Hb).
    unfold mbind, py_bind. rewrite Hj.
    destruct (IH (S index) (acc ++ [j])%list
                (mk_state (jobs_data st) (last_updated st) (S (ticks st))) Hdf)
      as (jobs & Hjobs & Hall2).
    exists (j :: jobs). rewrite Hjobs. simpl.
    rewrite <- app_assoc, Nat.add_succ_r. split; [reflexivity|].
    constructor; assumption.
Qed.

Lemma iterrows_incomplete (df : list row) :
  forall (index : nat) (acc : list Job.t) (st : state),
    Exists (fun r => ~ complete r) df ->
    exists e st', rows df index acc st = (Raise e, st').
Proof.
  induction df as [|r df IH]; intros index acc st Hex; simpl.
  - inversion Hex.
  - unfold mbind, py_bind.
    destruct (build index r st) as [[j|e] st1] eqn:Hb; [|eauto].
    inversion Hex as [? ? Hr|? ? Hdf]; subst.
    + destruct (row_to_job_incomplete index r st Hr) as (e & st' & He).
      rewrite He in Hb. discriminate.
    + apply IH. exact Hdf.
Qed.

End Reload.

(** X5. When the sheet is read and every row has the six columns, the
    reload stores one job per row, in the order of the rows, each with
    the trimmed cells of its row (a missing priority being "normal"),
    and reads the clock once per row and once more for
    [last_updated]. *)
Theorem reload_one_job_per_row
  (pd_to_datetime : nat -> bool -> string -> result Pd.scalar)
  (pd_total_seconds : stamp -> stamp -> result PyFloat.float)
  (timestamp_str : datetime -> string) (clock : nat -> datetime)
  (src : source) (df : list row) (st : state) :
  path_exists src = true ->
  read_excel src = Ok df ->
  Forall complete df ->
  exists jobs,
    load_jobs_from_excel pd_to_datetime pd_total_seconds timestamp_str clock
      src st
    = (Ok tt, mk_state jobs (Some (clock (ticks st + length df)%nat))
                (S (ticks st + length df)))
    /\ Forall2 built_from df jobs.
Proof.
  intros He Hr Hall. unfold load_jobs_from_excel, py_try.
  rewrite He, Hr. simpl. run_py.
  destruct (iterrows_complete pd_to_datetime pd_total_seconds timestamp_str
              clock df 0 [] st Hall)
    as (jobs & Hj & Hb).
  rewrite Hj. simpl. exists jobs. split; [reflexivity|exact Hb].
Qed.

Lemma reload_one_job_per_row_witness :
  exists jobs,
    load_jobs_from_excel no_fallback no_pandas no_stamp second_clock
      (mk_source true (Ok [daily_etl; blank_row])) empty_state
    = (Ok tt, mk_state jobs (Some (mk_datetime 2024 3 21 12 0 2 0)) 3)
    /\ Forall2 built_from [daily_etl; blank_row] jobs.
Proof.
  refine (reload_one_job_per_row no_fallback no_pandas no_stamp second_clock
            (mk_source true (Ok [daily_etl; blank_row]))
            [daily_etl; blank_row] empty_state _ _ _).
  - reflexivity.
  - reflexivity.
  - repeat constructor; eexists; reflexivity.
Defined.

(** X6. When the sheet is read but one of its rows lacks one of the
    six columns, the reload stores no job at all, whatever the other
    rows hold, and still returns and sets [last_updated]. *)
Theorem reload_bad_row_empties
  (pd_to_datetime : nat -> bool -> string -> result Pd.scalar)
  (pd_total_seconds : stamp -> stamp -> result PyFloat.float)
  (timestamp_str : datetime -> string) (clock : nat -> datetime)
  (src : source) (df : list row) (st : state) :
  path_exists src = true ->
  read_excel src = Ok df ->
  Exists (fun r => ~ complete r) df ->
  exists k,
    load_jobs_from_excel pd_to_datetime pd_total_seconds timestamp_str clock
      src st
    = (Ok tt, mk_state [] (Some (clock k)) (S k))
    /\ (ticks st <= k)%nat.
Proof.
  intros He Hr Hex. unfold load_jobs_from_excel, py_try.
  rewrite He, Hr. simpl. run_py.
  destruct (iterrows_incomplete pd_to_datetime pd_total_seconds timestamp_str
              clock df 0 [] st Hex)
    as (e & st' & Hraise).
  pose proof (iterrows_state _ _ _ _ _ _ _ _ _ _ Hraise) as (_ & _ & Ht).
  rewrite Hraise. simpl. exists (ticks st'). split; [reflexivity|exact Ht].
Qed.

Lemma reload_bad_row_empties_witness :
  exists k,
    load_jobs_from_excel no_fallback no_pandas no_stamp second_clock
      (mk_source true (Ok [daily_etl; <["jobName" := Val "X"]> ∅]))
      empty_state
    = (Ok tt, mk_state [] (Some (second_clock k)) (S k))
    /\ (ticks empty_state <= k)%nat.
Proof.
  refine (reload_bad_row_empties no_fallback no_pandas no_stamp second_clock
            (mk_source true (Ok [daily_etl; <["jobName" := Val "X"]> ∅]))
            [daily_etl; <["jobName" := Val "X"]> ∅] empty_state _ _ _).
  - reflexivity.
  - reflexivity.
  - apply Exists_cons_tl, Exists_cons_hd.
    intros (_ & [c H] & _). vm_compute in H. discriminate H.
Defined.

(** The fallback parser is not asked about a string that is blank or
    that one of the formats accepts. *)
Lemma try_formats_settled (pd1 pd2 : string -> result Pd.scalar)
  (fmts : list string) (s : string) :
  (exists fmt t, In fmt fmts /\ Strptime.strptime (PyStr.strip s) fmt = Ok t) ->
  try_formats pd1 fmts s = try_formats pd2 fmts s.
Proof.
  induction fmts as [|f fmts IH]; intros (fmt & t & Hin & Hf).
  - destruct Hin.
  - simpl. destruct (Strptime.strptime (PyStr.strip s) f) as [t'|e] eqn:E;
      [reflexivity|].
    destruct e; try reflexivity.
    apply IH. destruct Hin as [->|Hin]; [congruence|]. eauto.
Qed.

Lemma parse_datetime_settled (pd1 pd2 : string -> result Pd.scalar)
  (s : string) :
  PyStr.strip s = ""
  \/ (exists fmt t, In fmt formats
                    /\ Strptime.strptime (PyStr.strip s) fmt = Ok t) ->
  parse_datetime pd1 s = parse_datetime pd2 s.
Proof.
  intros [H|H].
  - rewrite !parse_datetime_blank by exact H. reflexivity.
  - unfold parse_datetime. rewrite (try_formats_settled pd1 pd2 formats s H).
    reflexivity.
Qed.

Section Idempotence.

Variable pd_to_datetime : nat -> bool -> string -> result Pd.scalar.
Variable pd_total_seconds : stamp -> stamp -> result PyFloat.float.
Variable timestamp_str : datetime -> string.
Variable clock : nat -> datetime.

Local Abbreviation process := (process_job_data pd_to_datetime pd_total_seconds).
Local Abbreviation build :=
  (row_to_job pd_to_datetime pd_total_seconds timestamp_str clock).
Local Abbreviation rows :=
  (iterrows pd_to_datetime pd_total_seconds timestamp_str clock).
Local Abbreviation load :=
  (load_jobs_from_excel pd_to_datetime pd_total_seconds timestamp_str clock).
Local Abbreviation fields := (row_fields pd_to_datetime pd_total_seconds).

Lemma process_job_data_same (m1 m2 : nat) (id1 id2 a b c d e f : string) :
  (PyStr.strip b = ""
   \/ exists fmt t, In fmt formats /\ Strptime.strptime (PyStr.strip b) fmt = Ok t) ->
  (PyStr.strip c = ""
   \/ exists fmt t, In fmt formats /\ Strptime.strptime (PyStr.strip c) fmt = Ok t) ->
  same_fields (process m1 (Job.mk_raw id1 a b c d e f))
              (process m2 (Job.mk_raw id2 a b c d e f)).
Proof.
  intros Hb Hc. unfold process_job_data, same_fields. simpl.
  rewrite (parse_datetime_settled (pd_to_datetime m1 false)
             (pd_to_datetime m2 false) b Hb),
    (parse_datetime_settled (pd_to_datetime m1 true)
       (pd_to_datetime m2 true) c Hc).
  destruct (parse_datetime (pd_to_datetime m2 false) b) as [s|]; simpl; [|exact I].
  destruct (parse_datetime (pd_to_datetime m2 true) c) as [t|]; simpl; [|exact I].
  destruct (determine_status pd_total_seconds s t); simpl; [|exact I].
  destruct (calculate_duration pd_total_seconds s t); simpl; [|exact I].
  reflexivity.
Qed.

Lemma row_fields_same (m1 m2 : nat) (r : row) (id1 id2 : string) :
  settled_row r ->
  same_fields (fields m1 r id1) (fields m2 r id2).
Proof.
  intros Hr. unfold row_fields.
  destruct (r !! "jobName") as [c1|] eqn:E1;
    [rewrite !(field_found _ _ _ _ E1)
    |rewrite !(field_missing _ _ _ E1); exact I].
  destruct (r !! "startTime") as [c2|] eqn:E2;
    [rewrite !(field_found _ _ _ _ E2)
    |rewrite !(field_missing _ _ _ E2); exact I].
  destruct (r !! "endTime") as [c3|] eqn:E3;
    [rewrite !(field_found _ _ _ _ E3)
    |rewrite !(field_missing _ _ _ E3); exact I].
  destruct (r !! "dependency") as [c4|] eqn:E4;
    [rewrite !(field_found _ _ _ _ E4)
    |rewrite !(field_missing _ _ _ E4); exact I].
  destruct (r !! "description") as [c5|] eqn:E5;
    [rewrite !(field_found _ _ _ _ E5)
    |rewrite !(field_missing _ _ _ E5); exact I].
  destruct (r !! "priority") as [c6|] eqn:E6;
    [rewrite !(field_found _ _ _ _ E6)
    |rewrite !(field_missing _ _ _ E6); exact I].
  simpl. apply process_job_data_same.
  - apply (Hr c2). left. exact E2.
  - apply (Hr c3). right. exact E3.
Qed.

Lemma row_to_job_same (index : nat) (r : row) (st1 st2 : state) :
  settled_row r ->
  same_fields (build index r st1).1 (build index r st2).1.
Proof.
  intros Hr. rewrite !row_to_job_fields.
  destruct (r !! "jobName"); simpl; [apply row_fields_same; exact Hr|exact I].
Qed.

Lemma iterrows_same (df : list row) :
  forall (index : nat) (acc1 acc2 : list Job.t) (st1 st2 : state),
    Forall settled_row df ->
    map erase_id acc1 = map erase_id acc2 ->
    same_jobs (rows df index acc1 st1).1 (rows df index acc2 st2).1.
Proof.
  induction df as [|r df IH]; intros index acc1 acc2 st1 st2 Hall Hacc; simpl.
  - exact Hacc.
  - inversion Hall as [|? ? Hr Hdf]; subst.
    unfold mbind, py_bind.
    pose proof (row_to_job_same index r st1 st2 Hr) as Hsame.
    destruct (build index r st1) as [[j1|e1] st1'];
      destruct (build index r st2) as [[j2|e2] st2'];
      simpl in Hsame; try contradiction; [|exact I].
    apply IH; [exact Hdf|]. rewrite !map_app, Hacc. simpl. rewrite Hsame.
    reflexivity.
Qed.

Lemma load_same (src : source) (st1 st2 : state) :
  (forall df, read_excel src = Ok df -> Forall settled_row df) ->
  map erase_id (jobs_data (load src st1).2)
  = map erase_id (jobs_data (load src st2).2).
Proof.
  intros Hsrc. unfold load_jobs_from_excel, py_try.
  destruct (path_exists src); simpl; [|reflexivity].
  destruct (read_excel src) as [df|e]; run_py; [|reflexivity].
  pose proof (iterrows_same df 0 [] [] st1 st2 (Hsrc df eq_refl) eq_refl)
    as Hsame.
  destruct (rows df 0%nat [] st1) as [[l1|e1] st1'];
    destruct (rows df 0%nat [] st2) as [[l2|e2] st2'];
    simpl in Hsame; try contradiction; simpl; [exact Hsame|reflexivity].
Qed.

End Idempotence.

(** X7. Reloading an unchanged sheet whose time cells are blank or in
    one of the five formats gives the same jobs again, but for their
    ids: from any two states of the store and of the clock, the jobs
    stored by the reload have the same fields, in the same order, the
    id apart. *)
Theorem reload_idempotent_up_to_id
  (pd_to_datetime : nat -> bool -> string -> result Pd.scalar)
  (pd_total_seconds : stamp -> stamp -> result PyFloat.float)
  (timestamp_str : datetime -> string) (clock : nat -> datetime)
  (src : source) (st1 st2 : state) :
  (forall df, read_excel src = Ok df -> Forall settled_row df) ->
  let load :=
    load_jobs_from_excel pd_to_datetime pd_total_seconds timestamp_str clock in
  map erase_id (jobs_data (load src st1).2)
  = map erase_id (jobs_data (load src st2).2)
  /\ map erase_id (jobs_data (load src (load src st1).2).2)
     = map erase_id (jobs_data (load src st1).2).
Proof.
  intros Hsrc load. split; apply load_same; exact Hsrc.
Qed.

Lemma reload_idempotent_up_to_id_witness :
  map erase_id
    (jobs_data
       (load_jobs_from_excel no_fallback no_pandas no_stamp second_clock
          (mk_source true (Ok [daily_etl; blank_row])) empty_state).2)
  = map erase_id
      (jobs_data
         (load_jobs_from_excel no_fallback no_pandas no_stamp second_clock
            (mk_source true (Ok [daily_etl; blank_row]))
            (mk_state [failed_job] None 5)).2).
Proof.
  refine (proj1 (reload_idempotent_up_to_id no_fallback no_pandas no_stamp
                   second_clock (mk_source true (Ok [daily_etl; blank_row]))
                   empty_state (mk_state [failed_job] None 5) _)).
  intros df H. simpl in H. injection H as <-.
  constructor; [|constructor; [|constructor]];
    intros c [H|H]; vm_compute in H; injection H as <-.
  - right. exists "%Y-%m-%dT%H:%M:%S", (mk_datetime 2024 3 20 0 0 0 0).
    split; [left; reflexivity|reflexivity].
  - right. exists "%Y-%m-%dT%H:%M:%S", (mk_datetime 2024 3 20 1 0 0 0).
    split; [left; reflexivity|reflexivity].
  - left. reflexivity.
  - left. reflexivity.
Defined.

(** A time cell that only the fallback parser reads may be read
    differently by the next reload: with "now" as a start, the two
    reloads do not store the same start. *)
Example reload_now_differs :
  map erase_id
    (jobs_data
       (load_jobs_from_excel now_fallback no_pandas no_stamp second_clock
          (mk_source true (Ok [now_row])) empty_state).2)
  <> map erase_id
       (jobs_data
          (load_jobs_from_excel now_fallback no_pandas no_stamp second_clock
             (mk_source true (Ok [now_row])) (mk_state [] None 5)).2).
Proof. vm_compute. discriminate. Qed.

(** ** Further properties of the listing and of the export *)






Lemma lower_truthy (s : string) : PyStr.truthy (PyStr.lower s) = PyStr.truthy s.
Proof. destruct s; reflexivity. Qed.

(** X12. The search does not look at the case of the term: two terms
    with the same lower-case form give the same listing. *)
Theorem search_ignores_case (a : jobs_args) (s1 s2 : string)
  (jobs : list Job.t) :
  PyStr.lower s1 = PyStr.lower s2 ->
  filtered_jobs (with_search a (Some s1)) jobs
  = filtered_jobs (with_search a (Some s2)) jobs.
Proof.
  intros H. unfold filtered_jobs, with_search. simpl.
  rewrite <- (lower_truthy s1), <- (lower_truthy s2), H. reflexivity.
Qed.

Lemma search_ignores_case_witness :
  filtered_jobs (with_search page_3_by_2 (Some "ETL")) [daily_etl_job; failed_job]
  = filtered_jobs (with_search page_3_by_2 (Some "etl")) [daily_etl_job; failed_job].
Proof.
  refine (search_ignores_case page_3_by_2 "ETL" "etl" [daily_etl_job; failed_job] _).
  reflexivity.
Defined.




Lemma slice_take_drop {A} (l : list A) (start len : Z) :
  0 <= start -> 0 <= len ->
  slice l start (start + len) = take (Z.to_nat len) (drop (Z.to_nat start) l).
Proof.
  intros Hs Hl. unfold slice, slice_index.
  destruct (Z.ltb_spec start 0); [lia|].
  destruct (Z.ltb_spec (start + len) 0); [lia|].
  destruct (Z_le_gt_dec start (Z.of_nat (length l))) as [Hin|Hout].
  - rewrite (Z.min_l start) by lia.
    destruct (Z_le_gt_dec (start + len) (Z.of_nat (length l))) as [Hfit|Hcut].
    + rewrite Z.min_l by lia. f_equal. lia.
    + rewrite Z.min_r by lia.
      rewrite !take_ge; [reflexivity| |]; rewrite length_drop; lia.
  - rewrite (Z.min_r start) by lia.
    rewrite !drop_ge by lia. rewrite !take_nil. reflexivity.
Qed.

(** X9. For a page number of at least 1 and a page size that is not
    negative, the page holds the jobs that follow the first
    (page - 1) * pageSize filtered jobs, at most pageSize of them; so the
    pages follow one another without a gap or a repetition: the first
    pages before it and the page itself are the first page * pageSize
    filtered jobs. *)
Theorem page_is_take_drop (a : jobs_args) (st : state) (p n : Z) :
  int_arg (arg_page a) 1 = Ok p ->
  int_arg (arg_pageSize a) 50 = Ok n ->
  1 <= p -> 0 <= n ->
  exists b,
    get_jobs a st = Http200 b
    /\ page_jobs b
       = take (Z.to_nat n)
           (drop (Z.to_nat ((p - 1) * n)) (filtered_jobs a (jobs_data st)))
    /\ (length (page_jobs b) <= Z.to_nat n)%nat
    /\ (take (Z.to_nat ((p - 1) * n)) (filtered_jobs a (jobs_data st))
        ++ page_jobs b)%list
       = take (Z.to_nat (p * n)) (filtered_jobs a (jobs_data st)).
Proof.
  intros Hp Hn Hp1 Hn0. eexists.
  split; [apply (get_jobs_parsed a st p n Hp Hn)|]. simpl.
  rewrite slice_take_drop by nia.
  split; [reflexivity|]. split; [rewrite length_take; lia|].
  rewrite take_take_drop. f_equal. nia.
Qed.

Lemma page_is_take_drop_witness :
  exists b,
    get_jobs (mk_args None None None (Some "2") (Some "1"))
      (mk_state [daily_etl_job; delayed_job; failed_job] None 1) = Http200 b
    /\ page_jobs b = [delayed_job].
Proof.
  destruct (page_is_take_drop (mk_args None None None (Some "2") (Some "1"))
              (mk_state [daily_etl_job; delayed_job; failed_job] None 1) 2 1
              eq_refl eq_refl ltac:(lia) ltac:(lia))
    as (b & H1 & H2 & _).
  exists b. split; [exact H1|exact H2].
Defined.

Lemma slice_from_end {A} (l : list A) (i j : Z) :
  0 < j <= i -> i <= Z.of_nat (length l) ->
  slice l (- i) (- j)
  = take (Z.to_nat (i - j)) (drop (Z.to_nat (Z.of_nat (length l) - i)) l).
Proof.
  intros Hij Hil. unfold slice, slice_index.
  destruct (Z.ltb_spec (- i) 0); [|lia].
  destruct (Z.ltb_spec (- j) 0); [|lia].
  rewrite !Z.max_l by lia. f_equal; [f_equal; lia|f_equal; f_equal; lia].
Qed.

Lemma slice_empty {A} (l : list A) (start stop : Z) :
  slice_index (Z.of_nat (length l)) stop <= slice_index (Z.of_nat (length l)) start ->
  slice l start stop = [].
Proof.
  intros H. unfold slice.
  replace (Z.to_nat _) with 0%nat at 1 by lia. reflexivity.
Qed.

(** X10. A page number below 1 is not refused. Page 0 is empty; a
    negative page counts from the end of the filtered jobs: page -k of
    size n, when (k + 1) * n jobs are there, holds the n jobs that come
    before the last k * n. *)
Theorem page_below_one (a : jobs_args) (st : state) (p n : Z) :
  int_arg (arg_page a) 1 = Ok p ->
  int_arg (arg_pageSize a) 50 = Ok n ->
  p <= 0 -> 0 < n ->
  exists b,
    get_jobs a st = Http200 b
    /\ totalCount b = length (filtered_jobs a (jobs_data st))
    /\ (p = 0 -> page_jobs b = [])
    /\ (p < 0 -> (1 - p) * n <= Z.of_nat (totalCount b) ->
        page_jobs b
        = take (Z.to_nat n)
            (drop (Z.to_nat (Z.of_nat (totalCount b) - (1 - p) * n))
               (filtered_jobs a (jobs_data st)))
        /\ length (page_jobs b) = Z.to_nat n).
Proof.
  intros Hp Hn Hp0 Hn0. eexists.
  split; [apply (get_jobs_parsed a st p n Hp Hn)|]. simpl.
  split; [reflexivity|]. split.
  - intros ->. apply slice_empty. unfold slice_index.
    destruct (Z.ltb_spec ((0 - 1) * n) 0); [|lia].
    destruct (Z.ltb_spec ((0 - 1) * n + n) 0); lia.
  - intros Hneg Hlen.
    replace ((p - 1) * n) with (- ((1 - p) * n)) by lia.
    replace (- ((1 - p) * n) + n) with (- ((- p) * n)) by lia.
    rewrite slice_from_end by nia.
    replace ((1 - p) * n - - p * n) with n by lia.
    split; [reflexivity|].
    rewrite length_take, length_drop. nia.
Qed.

Lemma page_below_one_witness :
  exists b,
    get_jobs (mk_args None None None (Some "-1") (Some "1"))
      (mk_state [daily_etl_job; delayed_job; failed_job] None 1) = Http200 b
    /\ page_jobs b = [delayed_job].
Proof.
  destruct (page_below_one (mk_args None None None (Some "-1") (Some "1"))
              (mk_state [daily_etl_job; delayed_job; failed_job] None 1) (-1) 1
              eq_refl eq_refl ltac:(lia) ltac:(lia))
    as (b & H1 & H2 & _ & H4).
  exists b. split; [exact H1|].
  rewrite (proj1 (H4 ltac:(lia) ltac:(rewrite H2; simpl; lia))), H2.
  reflexivity.
Defined.

(** X13. The export writes one record per job that the listing counts
    under the same filters, in the same order and with the fields of
    that job (an absent duration stays absent); it answers 200 with
    what [to_csv] returns and a file name stamped by one reading of the
    clock, and 500, the clock not read, when [to_csv] raises. *)
Theorem export_matches_listing
  (clock : nat -> datetime) (to_csv : list csv_row -> result string)
  (strftime_Ymd : datetime -> string)
  (a : jobs_args) (st : state) (b : jobs_page) :
  get_jobs a st = Http200 b ->
  let records := csv_data (filtered_jobs a (jobs_data st)) in
  length records = totalCount b
  /\ Forall2
       (fun job r =>
          csv_job_name r = Job.jobName job /\ csv_start_time r = Job.startTime job
          /\ csv_end_time r = Job.endTime job /\ csv_duration r = Job.duration job
          /\ csv_status r = Job.status job
          /\ csv_dependencies r = Job.dependency job
          /\ csv_priority r = Job.priority job
          /\ csv_description r = Job.description job)
       (filtered_jobs a (jobs_data st)) records
  /\ export_jobs clock to_csv strftime_Ymd a st
     = match to_csv records with
       | Ok content =>
           (Ok (Http200
                  (mk_export content "text/csv"
                     ("attachment; filename=tidal_jobs_export_"
                      ++ strftime_Ymd (clock (ticks st)) ++ ".csv"))),
            mk_state (jobs_data st) (last_updated st) (S (ticks st)))
       | Raise _ => (Ok (Http500 "Failed to export data"), st)
       end.
Proof.
  intros Hb records. split; [|split].
  - unfold get_jobs in Hb.
    destruct (int_arg (arg_page a) 1); simpl in Hb; [|discriminate].
    destruct (int_arg (arg_pageSize a) 50); simpl in Hb; [|discriminate].
    injection Hb as <-. simpl. unfold records, csv_data. apply length_map.
  - unfold records, csv_data.
    induction (filtered_jobs a (jobs_data st)) as [|job l IH]; simpl;
      constructor; [|exact IH].
    simpl. repeat split.
    destruct (Job.description job); reflexivity.
  - unfold export_jobs, py_try. run_py. fold records.
    destruct (to_csv records); reflexivity.
Qed.

Lemma export_matches_listing_witness :
  length (csv_data (filtered_jobs page_3_by_2 [daily_etl_job; failed_job])) = 1%nat.
Proof.
  refine (proj1 (export_matches_listing second_clock (fun _ => Ok "") no_stamp
                   page_3_by_2 (mk_state [daily_etl_job; failed_job] None 1)
                   (mk_page [] 1 None "excel") _)).
  reflexivity.
Defined.

(** A page number that starts with the separator 0x1C, which [strip]
    removes and [int] does not, is refused. *)
Example listing_separator_500 :
  get_jobs (mk_args None None None (Some (String (ascii_of_nat 28) "5")) None)
    (mk_state [daily_etl_job] None 1)
  = Http500 "Internal server error".
Proof. reflexivity. Qed.

(** ** Properties of the metrics, the refresh and the file watcher *)

Section Statuses.

Variable pd_to_datetime : nat -> bool -> string -> result Pd.scalar.
Variable pd_total_seconds : stamp -> stamp -> result PyFloat.float.
Variable timestamp_str : datetime -> string.
Variable clock : nat -> datetime.

Local Abbreviation rows :=
  (iterrows pd_to_datetime pd_total_seconds timestamp_str clock).
Local Abbreviation load :=
  (load_jobs_from_excel pd_to_datetime pd_total_seconds timestamp_str clock).

Lemma process_job_data_status (moment : nat) (job : Job.raw) (j : Job.t) :
  process_job_data pd_to_datetime pd_total_seconds moment job = Ok j ->
  four_statuses j.
Proof.
  intros H.
  destruct (process_job_data_inv _ _ _ _ _ H)
    as (s & e & st & d & _ & _ & Hst & _ & ->).
  unfold four_statuses. simpl.
  destruct (determine_status_cases _ _ _ _ Hst)
    as [[_ ->]|[(_ & _ & ->)|(_ & _ & [->|[->| ->]])]]; auto.
Qed.

Lemma row_to_job_status (index : nat) (r : row) (st st' : state) (j : Job.t) :
  row_to_job pd_to_datetime pd_total_seconds timestamp_str clock index r st
  = (Ok j, st') ->
  four_statuses j.
Proof.
  rewrite row_to_job_fields. destruct (r !! "jobName"); [|discriminate].
  unfold row_fields.
  repeat match goal with
         | |- context [field ?r ?c ?d] =>
             destruct (field r c d); simpl; [|discriminate]
         end.
  intros [= H _]. exact (process_job_data_status _ _ _ H).
Qed.

Lemma iterrows_statuses (df : list row) :
  forall (index : nat) (acc jobs : list Job.t) (st st' : state),
    Forall four_statuses acc ->
    rows df index acc st = (Ok jobs, st') ->
    Forall four_statuses jobs.
Proof.
  induction df as [|r df IH]; intros index acc jobs st st' Hacc; simpl.
  - intros [= <- _]. exact Hacc.
  - unfold mbind, py_bind.
    destruct (row_to_job _ _ _ _ index r st) as [[j|e] st1] eqn:Hb;
      [|discriminate].
    apply IH. apply Forall_app. split; [exact Hacc|].
    constructor; [|constructor]. exact (row_to_job_status _ _ _ _ _ Hb).
Qed.

(** After a reload every stored job has one of the four statuses. *)
Lemma load_statuses (src : source) (st : state) :
  Forall four_statuses (jobs_data (load src st).2).
Proof.
  unfold load_jobs_from_excel, py_try.
  destruct (path_exists src); simpl; [|constructor].
  destruct (read_excel src) as [df|e]; run_py; [|constructor].
  destruct (rows df 0%nat [] st) as [[jobs|e] st1] eqn:Hr; simpl; [|constructor].
  refine (iterrows_statuses _ _ _ _ _ _ _ Hr). constructor.
Qed.

End Statuses.

Lemma count_four_statuses (jobs : list Job.t) :
  Forall four_statuses jobs ->
  (count_status "completed" jobs + count_status "running" jobs
   + count_status "failed" jobs + count_status "delayed" jobs
   = length jobs)%nat.
Proof.
  unfold count_status, with_status.
  induction 1 as [|j jobs Hj _ IH]; simpl; [reflexivity|].
  destruct Hj as [H|[H|[H|H]]]; rewrite H; simpl; lia.
Qed.

Lemma count_three_priorities (jobs : list Job.t) :
  (count_priority "high" jobs + count_priority "normal" jobs
   + count_priority "low" jobs <= length jobs)%nat.
Proof.
  unfold count_priority.
  induction jobs as [|j jobs IH]; simpl; [lia|].
  destruct (String.eqb_spec (Job.priority j) "high") as [E|_];
    [rewrite E; simpl; lia|].
  destruct (String.eqb_spec (Job.priority j) "normal") as [E|_];
    [rewrite E; simpl; lia|].
  destruct (Job.priority j =? "low")%string; simpl; lia.
Qed.

Lemma no_completed_jobs (jobs : list Job.t) :
  count_status "completed" jobs = 0%nat -> completed_jobs jobs = [].
Proof.
  unfold count_status, with_status, completed_jobs.
  induction jobs as [|j l IH]; simpl; [reflexivity|].
  destruct (Job.status j =? "completed")%string; simpl; [discriminate|exact IH].
Qed.

(** The two answers of [get_metrics]: the counts with an average, or
    the error 500 when the average cannot be computed. *)
Lemma get_metrics_cases
  (pd_total_seconds : stamp -> stamp -> result PyFloat.float) (st : state) :
  (exists avg,
     get_metrics pd_total_seconds st
     = Http200
         (mk_metrics (length (jobs_data st))
            (count_status "completed" (jobs_data st))
            (count_status "running" (jobs_data st))
            (count_status "failed" (jobs_data st))
            (count_status "delayed" (jobs_data st)) avg
            (count_priority "high" (jobs_data st))
            (count_priority "normal" (jobs_data st))
            (count_priority "low" (jobs_data st)) (last_updated st))
     /\ (completed_jobs (jobs_data st) = [] -> avg = 0))
  \/ (get_metrics pd_total_seconds st = Http500 "Internal server error"
      /\ completed_jobs (jobs_data st) <> []).
Proof.
  unfold get_metrics.
  destruct (completed_jobs (jobs_data st)) as [|j l] eqn:E; simpl.
  - left. exists 0. split; reflexivity.
  - destruct (total_duration pd_total_seconds (j :: l)) as [t|e]; simpl;
      [|right; split; [reflexivity|discriminate]].
    destruct (PyFloat.int _) as [avg|e]; simpl;
      [|right; split; [reflexivity|discriminate]].
    left. exists avg. split; [reflexivity|discriminate].
Qed.

(** X14. On the collection that a reload has stored, the metrics
    answer 200 or the error 500. When they answer 200, their four
    status counts add up to the total, which is the number of stored
    jobs; the three priority counts add up to at most the total, a
    priority outside high, normal and low being counted nowhere; the
    average is 0 when no job is completed. They answer 200 when no job
    is completed; with a completed job they answer 500 when the
    average cannot be computed, as with a start that is [NaT]. *)
Theorem metrics_partition_after_reload
  (pd_to_datetime : nat -> bool -> string -> result Pd.scalar)
  (pd_total_seconds : stamp -> stamp -> result PyFloat.float)
  (timestamp_str : datetime -> string) (clock : nat -> datetime)
  (src : source) (st : state) :
  let st' :=
    (load_jobs_from_excel pd_to_datetime pd_total_seconds timestamp_str clock
       src st).2 in
  ((exists m, get_metrics pd_total_seconds st' = Http200 m)
   \/ get_metrics pd_total_seconds st' = Http500 "Internal server error")
  /\ (forall m,
        get_metrics pd_total_seconds st' = Http200 m ->
        m_total m = length (jobs_data st')
        /\ (m_completed m + m_running m + m_failed m + m_delayed m
            = m_total m)%nat
        /\ (m_high m + m_normal m + m_low m <= m_total m)%nat
        /\ (m_completed m = 0%nat -> avgRunTimeMinutes m = 0)
        /\ m_lastUpdated m = last_updated st')
  /\ (count_status "completed" (jobs_data st') = 0%nat ->
      exists m,
        get_metrics pd_total_seconds st' = Http200 m
        /\ avgRunTimeMinutes m = 0).
Proof.
  intros st'.
  destruct (get_metrics_cases pd_total_seconds st')
    as [(avg & Hm & Havg)|[Hm Hne]].
  - split; [left; eauto|]. split.
    + intros m. rewrite Hm. intros [= <-]. simpl.
      split; [reflexivity|].
      split; [apply count_four_statuses, load_statuses|].
      split; [apply count_three_priorities|].
      split; [|reflexivity].
      intros H0. apply Havg, no_completed_jobs, H0.
    + intros H0. eexists. split; [exact Hm|]. simpl.
      apply Havg, no_completed_jobs, H0.
  - split; [right; exact Hm|]. split.
    + intros m. rewrite Hm. discriminate.
    + intros H0. exfalso. apply Hne, no_completed_jobs, H0.
Qed.

Lemma metrics_partition_after_reload_witness :
  exists m,
    get_metrics no_pandas
      (load_jobs_from_excel no_fallback no_pandas no_stamp second_clock
         (mk_source true (Ok [daily_etl; blank_row])) empty_state).2
    = Http200 m
    /\ (m_completed m + m_running m + m_failed m + m_delayed m = 2)%nat
    /\ avgRunTimeMinutes m = 60.
Proof.
  destruct (metrics_partition_after_reload no_fallback no_pandas no_stamp
              second_clock (mk_source true (Ok [daily_etl; blank_row]))
              empty_state)
    as (_ & H & _).
  eexists. split; [vm_compute; reflexivity|].
  split; [|reflexivity].
  refine (proj1 (proj2 (H _ _))). vm_compute. reflexivity.
Defined.

(** The metrics on a collection with a completed job whose start is
    [NaT]: the sum of the seconds is a NaN, which [int] refuses. *)
Example metrics_nat_500 :
  get_metrics nat_seconds (mk_state [daily_etl_job; nat_job] None 1)
  = Http500 "Internal server error".
Proof. vm_compute. reflexivity. Qed.

(** X15. The refresh never answers 500: it reloads, then answers 200
    with the number of jobs now stored and the time of the reload, which
    is never absent; the count is 0 when the sheet is missing or cannot
    be read. *)
Theorem refresh_always_succeeds
  (pd_to_datetime : nat -> bool -> string -> result Pd.scalar)
  (pd_total_seconds : stamp -> stamp -> result PyFloat.float)
  (timestamp_str : datetime -> string) (clock : nat -> datetime)
  (src : source) (st : state) :
  exists st' k,
    load_jobs_from_excel pd_to_datetime pd_total_seconds timestamp_str clock
      src st = (Ok tt, st')
    /\ refresh_data pd_to_datetime pd_total_seconds timestamp_str clock src st
       = (Ok (Http200 (mk_refresh "Data refreshed successfully"
                         (length (jobs_data st')) (Some (clock k)))), st')
    /\ last_updated st' = Some (clock k)
    /\ (path_exists src = false \/ (exists e, read_excel src = Raise e) ->
        length (jobs_data st') = 0%nat).
Proof.
  destruct (load_total pd_to_datetime pd_total_seconds timestamp_str clock
              src st)
    as (st' & k & Hl & _ & Hu & _ & _).
  exists st', k. split; [exact Hl|].
  split; [|split; [exact Hu|]].
  - unfold refresh_data, py_try. run_py. rewrite Hl. simpl. rewrite Hu.
    reflexivity.
  - intros H.
    rewrite (load_unavailable pd_to_datetime pd_total_seconds timestamp_str
               clock src st H) in Hl.
    injection Hl as <-. reflexivity.
Qed.

Lemma refresh_always_succeeds_witness :
  exists st' k,
    load_jobs_from_excel no_fallback no_pandas no_stamp second_clock
      (mk_source false (Ok [])) empty_state = (Ok tt, st')
    /\ refresh_data no_fallback no_pandas no_stamp second_clock
         (mk_source false (Ok [])) empty_state
       = (Ok (Http200 (mk_refresh "Data refreshed successfully"
                         (length (jobs_data st')) (Some (second_clock k)))), st')
    /\ length (jobs_data st') = 0%nat.
Proof.
  destruct (refresh_always_succeeds no_fallback no_pandas no_stamp second_clock
              (mk_source false (Ok [])) empty_state)
    as (st' & k & H1 & H2 & _ & H4).
  exists st', k. split; [exact H1|]. split; [exact H2|].
  apply H4. left. reflexivity.
Defined.

Lemma endswith_spec (s suffix : string) :
  endswith s suffix = true <-> exists pre, s = pre ++ suffix.
Proof.
  split.
  - induction s as [|c r IH]; cbn [endswith].
    + rewrite orb_false_r. intros H. apply String.eqb_eq in H as <-.
      exists "". reflexivity.
    + intros H. apply orb_prop in H as [H|H].
      * apply String.eqb_eq in H. exists "". exact H.
      * destruct (IH H) as [pre ->]. exists (String c pre). reflexivity.
  - intros [pre ->]. induction pre as [|c pre IH].
    + change ("" ++ suffix) with suffix.
      destruct suffix; cbn [endswith]; rewrite String.eqb_refl; reflexivity.
    + change (String c pre ++ suffix) with (String c (pre ++ suffix)).
      cbn [endswith]. rewrite IH. apply orb_true_r.
Qed.

(** X16. The file watcher reloads exactly on the events whose path
    ends in "input.xlsx": such an event does what the reload does, any
    other event leaves the collection, [last_updated] and the clock as
    they are. *)
Theorem watcher_reloads_on_sheet_only
  (pd_to_datetime : nat -> bool -> string -> result Pd.scalar)
  (pd_total_seconds : stamp -> stamp -> result PyFloat.float)
  (timestamp_str : datetime -> string) (clock : nat -> datetime)
  (src_path : string) (src : source) (st : state) :
  ((exists pre, src_path = pre ++ "input.xlsx") ->
   on_modified pd_to_datetime pd_total_seconds timestamp_str clock src_path
     src st
   = load_jobs_from_excel pd_to_datetime pd_total_seconds timestamp_str clock
       src st)
  /\ (~ (exists pre, src_path = pre ++ "input.xlsx") ->
      on_modified pd_to_datetime pd_total_seconds timestamp_str clock src_path
        src st
      = (Ok tt, st)).
Proof.
  unfold on_modified. rewrite <- endswith_spec.
  destruct (endswith src_path "input.xlsx"); split; intros H;
    reflexivity || congruence.
Qed.

Lemma watcher_reloads_on_sheet_only_witness :
  on_modified no_fallback no_pandas no_stamp second_clock
    "sample_data/old_input.xlsx"
    (mk_source false (Ok [])) (mk_state [daily_etl_job] None 4)
  = (Ok tt, mk_state [] (Some (mk_datetime 2024 3 21 12 0 4 0)) 5).
Proof.
  refine (proj1 (watcher_reloads_on_sheet_only no_fallback no_pandas no_stamp
                   second_clock "sample_data/old_input.xlsx"
                   (mk_source false (Ok []))
                   (mk_state [daily_etl_job] None 4)) _).
  exists "sample_data/old_". reflexivity.
Defined.

(** ** Properties of the login *)

Section Login.

Variable admin_hash viewer_hash : string.
Variable checkpw : string -> string -> result bool.
Variable create_access_token : Z -> string -> string -> result string.

Local Abbreviation find_user := (get_user_by_username admin_hash viewer_hash).
Local Abbreviation log_in :=
  (login admin_hash viewer_hash checkpw create_access_token).

(** The user store holds a user per name: the one found is the one of
    that name, and only "admin" and "viewer" are found. *)
Lemma get_user_by_username_spec (username : jvalue) (user : User.t) :
  find_user username = Some user <->
  (username = JStr "admin"
   /\ user = User.mk 1 "admin" admin_hash "admin" "admin@example.com"
               "System Administrator")
  \/ (username = JStr "viewer"
      /\ user = User.mk 2 "viewer" viewer_hash "viewer" "viewer@example.com"
                  "System Viewer").
Proof.
  unfold get_user_by_username, users.
  destruct username as [s|b]; cbn [List.find User.username].
  - destruct (String.eqb_spec "admin" s) as [<-|Ha].
    + split; [intros [= <-]; auto|].
      intros [[_ ->]|[H _]]; [reflexivity|discriminate H].
    + destruct (String.eqb_spec "viewer" s) as [<-|Hv].
      * split; [intros [= <-]; auto|].
        intros [[H _]|[_ ->]]; [discriminate H|reflexivity].
      * split; [discriminate|].
        intros [[H _]|[H _]]; congruence.
  - split; [discriminate|]. intros [[H _]|[H _]]; discriminate H.
Qed.

Lemma login_ok_inv (request_json : result body) (token : string) (id : Z)
  (username role : string) :
  log_in request_json = LoginOk token id username role ->
  exists m pw user,
    request_json = Ok (BObject m)
    /\ m !! "username" = Some (JStr username)
    /\ m !! "password" = Some (JStr pw) /\ pw <> ""
    /\ find_user (JStr username) = Some user
    /\ User.id user = id /\ User.role user = role
    /\ checkpw pw (User.password user) = Ok true
    /\ create_access_token id username role = Ok token.
Proof.
  unfold login.
  destruct request_json as [[m|]|e]; simpl; try discriminate.
  destruct (m !! "username") as [u|] eqn:Eu; simpl; [|discriminate].
  destruct (m !! "password") as [p|] eqn:Ep; simpl;
    [|rewrite orb_true_r; discriminate].
  destruct (jtruthy u) eqn:Tu; simpl; [|discriminate].
  destruct (jtruthy p) eqn:Tp; simpl; [|discriminate].
  destruct (find_user u) as [user|] eqn:Ef; [|discriminate].
  destruct p as [pw|b]; simpl; [|discriminate].
  destruct (checkpw pw (User.password user)) as [[|]|e] eqn:Ec; simpl;
    try discriminate.
  destruct (create_access_token _ _ _) as [tok|e] eqn:Et; simpl; [|discriminate].
  intros [= <- <- <- <-].
  assert (Hu : u = JStr (User.username user)).
  { apply get_user_by_username_spec in Ef as [[-> ->]|[-> ->]]; reflexivity. }
  subst u. exists m, pw, user.
  repeat split; try assumption; try reflexivity.
  intros ->. discriminate Tp.
Qed.

End Login.

(** X17. [login] answers 200 with a token only when the body is an
    object whose username is the name of a stored user ("admin" or
    "viewer"), whose password is a non-empty string that [checkpw]
    accepts against the hash stored for that user, and the token is the
    one made for the id, name and role of that user. *)
Theorem login_only_with_checked_password
  (admin_hash viewer_hash : string)
  (checkpw : string -> string -> result bool)
  (create_access_token : Z -> string -> string -> result string)
  (request_json : result body) (token : string) (id : Z)
  (username role : string) :
  login admin_hash viewer_hash checkpw create_access_token request_json
  = LoginOk token id username role ->
  exists m pw hash,
    request_json = Ok (BObject m)
    /\ m !! "username" = Some (JStr username)
    /\ m !! "password" = Some (JStr pw) /\ pw <> ""
    /\ ((username = "admin" /\ id = 1 /\ role = "admin" /\ hash = admin_hash)
        \/ (username = "viewer" /\ id = 2 /\ role = "viewer"
            /\ hash = viewer_hash))
    /\ checkpw pw hash = Ok true
    /\ create_access_token id username role = Ok token.
Proof.
  intros H.
  destruct (login_ok_inv _ _ _ _ _ _ _ _ _ H)
    as (m & pw & user & Hr & Hu & Hp & Hne & Hf & Hid & Hrole & Hc & Ht).
  exists m, pw, (User.password user).
  repeat split; try assumption.
  apply get_user_by_username_spec in Hf as [[[= ->] ->]|[[= ->] ->]];
    simpl in *; subst; [left|right]; auto.
Qed.

Lemma login_only_with_checked_password_witness :
  exists m pw hash,
    Ok (BObject (<["username" := JStr "admin"]>
                 (<["password" := JStr "Admin@123"]> ∅)))
    = Ok (BObject m)
    /\ m !! "username" = Some (JStr "admin")
    /\ m !! "password" = Some (JStr pw) /\ pw <> ""
    /\ (("admin" = "admin" /\ 1 = 1 /\ "admin" = "admin" /\ hash = "$2b$admin")
        \/ ("admin" = "viewer" /\ 1 = 2 /\ "admin" = "viewer"
            /\ hash = "$2b$viewer"))
    /\ (fun pw hash => Ok (String.eqb (pw ++ "+" ++ hash) "Admin@123+$2b$admin"))
         pw hash = Ok true
    /\ (fun (_ : Z) (name _ : string) => Ok ("token-" ++ name)) 1 "admin" "admin"
       = Ok "token-admin".
Proof.
  refine (login_only_with_checked_password "$2b$admin" "$2b$viewer"
            (fun pw hash => Ok (String.eqb (pw ++ "+" ++ hash) "Admin@123+$2b$admin"))
            (fun _ name _ => Ok ("token-" ++ name))
            (Ok (BObject (<["username" := JStr "admin"]>
                          (<["password" := JStr "Admin@123"]> ∅))))
            "token-admin" 1 "admin" "admin" _).
  reflexivity.
Defined.

(** X18. [login] answers 400 when the username or the password is
    missing or empty, and [checkpw] is not consulted; it answers the
    same 401, with the same message, for a name that is not stored and
    for a stored name with a password that [checkpw] refuses. *)
Theorem login_rejections
  (admin_hash viewer_hash : string)
  (checkpw : string -> string -> result bool)
  (create_access_token : Z -> string -> string -> result string)
  (m : gmap string jvalue) :
  let username := default (JOther false) (m !! "username") in
  let password := default (JOther false) (m !! "password") in
  let answer :=
    login admin_hash viewer_hash checkpw create_access_token (Ok (BObject m)) in
  (jtruthy username = false \/ jtruthy password = false ->
   answer = LoginError 400 "Username and password are required")
  /\ (jtruthy username = true -> jtruthy password = true ->
      get_user_by_username admin_hash viewer_hash username = None ->
      answer = LoginError 401 "Invalid username or password")
  /\ (forall user pw,
        jtruthy username = true -> password = JStr pw -> pw <> "" ->
        get_user_by_username admin_hash viewer_hash username = Some user ->
        checkpw pw (User.password user) = Ok false ->
        answer = LoginError 401 "Invalid username or password").
Proof.
  intros username password answer. unfold answer, login. simpl.
  fold username password.
  split; [|split].
  - intros [H|H]; rewrite H; simpl; rewrite ?orb_true_r; reflexivity.
  - intros Hu Hp Hf. rewrite Hu, Hp, Hf. reflexivity.
  - intros user pw Hu Hp Hne Hf Hc. rewrite Hu, Hp, Hf. simpl.
    destruct pw; [contradiction|]. simpl. rewrite Hc. reflexivity.
Qed.

Lemma login_rejections_witness :
  login "$2b$admin" "$2b$viewer" (fun _ _ => Ok false)
    (fun _ name _ => Ok name)
    (Ok (BObject (<["username" := JStr "root"]>
                  (<["password" := JStr "x"]> ∅))))
  = LoginError 401 "Invalid username or password"
  /\ login "$2b$admin" "$2b$viewer" (fun _ _ => Ok false)
       (fun _ name _ => Ok name)
       (Ok (BObject (<["username" := JStr "admin"]>
                     (<["password" := JStr "x"]> ∅))))
     = LoginError 401 "Invalid username or password".
Proof.
  split.
  - refine (proj1 (proj2 (login_rejections "$2b$admin" "$2b$viewer"
                            (fun _ _ => Ok false) (fun _ name _ => Ok name)
                            (<["username" := JStr "root"]>
                             (<["password" := JStr "x"]> ∅)))) _ _ _);
      reflexivity.
  - refine (proj2 (proj2 (login_rejections "$2b$admin" "$2b$viewer"
                            (fun _ _ => Ok false) (fun _ name _ => Ok name)
                            (<["username" := JStr "admin"]>
                             (<["password" := JStr "x"]> ∅))))
              (User.mk 1 "admin" "$2b$admin" "admin" "admin@example.com"
                 "System Administrator") "x" _ _ _ _ _);
      reflexivity || discriminate.
Defined.

(** ** Further properties of the alerts *)

(** A running job whose start has a zone: its age cannot be computed,
    and the evaluation answers 500 although a job is delayed. *)
Example alerts_aware_500 :
  get_alerts no_pandas second_clock
    (mk_state [delayed_job; aware_job] None 0)
  = (Ok (Http500 "Internal server error"),
     mk_state [delayed_job; aware_job] None 1).
Proof. vm_compute. reflexivity. Qed.

(** The comparison with three hours, on a [timedelta]. *)
Lemma three_hours (d : timedelta) :
  seconds_gt (Timedelta d) (3 * 60 * 60) = true <-> seconds (3 * 60 * 60) < d.
Proof.
  rewrite seconds_gt_timedelta; [apply Z.ltb_lt|].
  change (3 * 60 * 60) with 10800. change (2 ^ 14) with 16384. lia.
Qed.

(** X19. The long-running jobs of the alerts. When the loop that
    collects them ends, a job listed as long-running has status
    "running" and a start that one reading of the clock, made during the
    evaluation, found more than three hours old (three hours sharp is
    not enough), and a running job whose start is more than three hours
    before every reading of the clock is listed. The loop stops with an
    exception only at a running job whose start cannot be subtracted
    from the clock, so it ends when every such start is a [datetime]. *)
Theorem long_running_threshold
  (pd_total_seconds : stamp -> stamp -> result PyFloat.float)
  (clock : nat -> datetime) (st : state) :
  exists outcome st',
    long_running pd_total_seconds clock (jobs_data st) [] st = (outcome, st')
    /\ (forall long_running_jobs,
          outcome = Ok long_running_jobs ->
          (forall job,
             In job long_running_jobs ->
             In job (jobs_data st) /\ Job.status job = "running"
             /\ exists start k d,
                  Job.startTimeParsed job = Some start
                  /\ (ticks st <= k < ticks st')%nat
                  /\ sub pd_total_seconds (Py (clock k)) start = Ok d
                  /\ seconds_gt d (3 * 60 * 60) = true)
          /\ (forall job start,
                In job (jobs_data st) -> Job.status job = "running" ->
                Job.startTimeParsed job = Some start ->
                (forall k d, (ticks st <= k)%nat ->
                             sub pd_total_seconds (Py (clock k)) start = Ok d ->
                             seconds_gt d (3 * 60 * 60) = true) ->
                In job long_running_jobs))
    /\ (forall e,
          outcome = Raise e ->
          exists job start k,
            In job (jobs_data st) /\ Job.status job = "running"
            /\ Job.startTimeParsed job = Some start
            /\ (ticks st <= k < ticks st')%nat
            /\ sub pd_total_seconds (Py (clock k)) start = Raise e)
    /\ ((forall job start,
           In job (jobs_data st) -> Job.status job = "running" ->
           Job.startTimeParsed job = Some start -> exists t, start = Py t) ->
        exists long_running_jobs, outcome = Ok long_running_jobs)
    /\ (forall d,
          seconds_gt (Timedelta d) (3 * 60 * 60) = true
          <-> seconds (3 * 60 * 60) < d).
Proof.
  destruct (long_running_loop pd_total_seconds clock (jobs_data st) [] st)
    as (outcome & st' & Hl & _ & _ & _ & Hout).
  exists outcome, st'. split; [exact Hl|].
  split; [|split; [|split; [|exact three_hours]]].
  - intros long ->. destruct Hout as (extra & -> & _ & _ & Hs & Hc).
    split; [exact Hs|exact Hc].
  - intros e ->. exact Hout.
  - intros Hpy. destruct outcome as [long|e]; [eauto|].
    destruct Hout as (job & start & k & Hin & Hr & Hst & _ & Hraise).
    destruct (Hpy job start Hin Hr Hst) as [t ->].
    unfold sub, PyTime.sub in Hraise. discriminate Hraise.
Qed.

Lemma long_running_threshold_witness :
  exists long_running_jobs st',
    long_running no_pandas second_clock [sync_job] []
      (mk_state [sync_job] None 0)
    = (Ok long_running_jobs, st')
    /\ In sync_job long_running_jobs.
Proof.
  destruct (long_running_threshold no_pandas second_clock
              (mk_state [sync_job] None 0))
    as (outcome & st' & Hl & Hok & _ & Hpy & _).
  destruct Hpy as [long ->].
  { intros job start [<-|[]] _ [= <-]. eauto. }
  exists long, st'. split; [exact Hl|].
  apply (proj2 (Hok long eq_refl) sync_job (Py (mk_datetime 2024 3 21 0 0 0 0)));
    try reflexivity.
  - left. reflexivity.
  - intros k d _ [= <-]. apply three_hours.
    unfold seconds, second_clock, PyTime.toordinal. simpl.
    pose proof (Z.div_pos (Z.of_nat k) 60 ltac:(lia) ltac:(lia)).
    pose proof (Z.mod_pos_bound (Z.of_nat k) 60 ltac:(lia)).
    lia.
Defined.

(** X20. The alert evaluation changes neither the collection nor
    [last_updated], whatever it answers. When it answers 200 it has read
    the clock once for each running job that has a start and once more
    for its timestamp, which is that last reading, and every alert
    names at least one job, all of them jobs of the collection. It
    answers 500 only when the start of a running job cannot be
    subtracted from the clock, so never when every such start is a
    [datetime]. *)
Theorem alerts_read_only
  (pd_total_seconds : stamp -> stamp -> result PyFloat.float)
  (clock : nat -> datetime) (st : state) :
  let n := length (List.filter timed_running (jobs_data st)) in
  exists r st',
    get_alerts pd_total_seconds clock st = (Ok r, st')
    /\ jobs_data st' = jobs_data st /\ last_updated st' = last_updated st
    /\ (ticks st <= ticks st' <= S (ticks st + n))%nat
    /\ match r with
       | Http200 b =>
           ticks st' = S (ticks st + n)
           /\ timestamp b = clock (ticks st + n)%nat
           /\ forall alert,
                In alert (alerts b) ->
                Alert.jobs alert <> []
                /\ forall name, In name (Alert.jobs alert) ->
                     In name (map Job.jobName (jobs_data st))
       | Http500 error =>
           error = "Internal server error"
           /\ exists job start k e,
                In job (jobs_data st) /\ Job.status job = "running"
                /\ Job.startTimeParsed job = Some start
                /\ (ticks st <= k < ticks st')%nat
                /\ sub pd_total_seconds (Py (clock k)) start = Raise e
       end
    /\ ((forall job start,
           In job (jobs_data st) -> Job.status job = "running" ->
           Job.startTimeParsed job = Some start -> exists t, start = Py t) ->
        exists b, r = Http200 b).
Proof.
  intros n.
  destruct (long_running_loop pd_total_seconds clock (jobs_data st) [] st)
    as (outcome & st1 & Hl & Hj & Hu & Ht & Hout).
  fold n in Ht, Hout. rewrite get_alerts_outcome, Hl.
  destruct outcome as [long|e].
  - destruct Hout as (extra & -> & Hticks & _ & Hs & _).
    do 2 eexists. split; [reflexivity|]. simpl.
    split; [exact Hj|]. split; [exact Hu|]. split; [lia|].
    split; [|eauto].
    split; [lia|]. split; [rewrite Hticks; reflexivity|].
    intros alert Hin. rewrite !in_app_iff in Hin.
    assert (Hemit : forall jobs mk,
               (forall l, Alert.jobs (mk l) = map Job.jobName l) ->
               (forall j, In j jobs -> In j (jobs_data st)) ->
               In alert (emit jobs mk) ->
               Alert.jobs alert <> []
               /\ forall name, In name (Alert.jobs alert) ->
                    In name (map Job.jobName (jobs_data st))).
    { intros jobs mk Hmk Hsub Hal. destruct jobs as [|j jobs]; [destruct Hal|].
      destruct Hal as [<-|[]]. rewrite Hmk. split; [discriminate|].
      intros name Hn. apply in_map_iff in Hn as (j' & <- & Hj').
      apply in_map. apply Hsub. exact Hj'. }
    destruct Hin as [Hin|[Hin|Hin]].
    + apply (Hemit (with_status "delayed" (jobs_data st)) delayed_alert);
        [reflexivity| |exact Hin].
      intros j Hj'. unfold with_status in Hj'. apply filter_In in Hj'. tauto.
    + apply (Hemit (with_status "failed" (jobs_data st)) failed_alert);
        [reflexivity| |exact Hin].
      intros j Hj'. unfold with_status in Hj'. apply filter_In in Hj'. tauto.
    + apply (Hemit extra long_running_alert); [reflexivity| |exact Hin].
      intros j Hj'. apply Hs in Hj'. tauto.
  - destruct Hout as (job & start & k & Hin & Hr & Hst & Hk & Hraise).
    do 2 eexists. split; [reflexivity|].
    split; [exact Hj|]. split; [exact Hu|]. split; [lia|].
    split.
    + split; [reflexivity|]. exists job, start, k, e.
      repeat split; try assumption; lia.
    + intros Hpy. destruct (Hpy job start Hin Hr Hst) as [t ->].
      unfold sub, PyTime.sub in Hraise. discriminate Hraise.
Qed.
